(** * Announcements router of the High School Management System API

    A shallow embedding of [src/backend/routers/announcements.py] and the
    properties of its timestamp parser, its active-window filter and its
    create / update handlers.

    Conventions of the embedding.
    - A Python [str] is a [string]; every character is read as the code point
      of the same number, so the strings covered are those over U+0000..U+00FF.
      On that range [\d] is exactly [0-9] and [str.strip] removes exactly the
      characters of [isspace] below.
    - A MongoDB document is a [gmap string value]; a collection is the list of
      its documents in the order [find({})] yields them.
    - [datetime.fromisoformat], the server's local time zone and
      [bson.ObjectId] belong to the platform, not to this repository: the
      handlers are defined over a [Platform] and the general theorems hold
      for every platform.  The reference platform [Py.platform] is used
      where a property is evaluated at a concrete input. *)

From Stdlib Require Import ZArith Ascii String List Bool Lia.
From stdpp Require Import base option strings gmap list.

Local Open Scope string_scope.
Local Open Scope Z_scope.

(** ** Python [str] operations used by the router *)

Module Str.

(** [c.isspace()] on U+0000..U+00FF: TAB..CR, FS..US, SPACE, NEL, NBSP. *)
Definition isspace (c : ascii) : bool :=
  let n := N_of_ascii c in
  (((9 <=? n) && (n <=? 13)) || ((28 <=? n) && (n <=? 32))
   || (n =? 133) || (n =? 160))%N.

(** The regular-expression class [\d] on U+0000..U+00FF. *)
Definition isdigit (c : ascii) : bool :=
  let n := N_of_ascii c in ((48 <=? n) && (n <=? 57))%N.

Definition is_empty (s : string) : bool :=
  match s with EmptyString => true | String _ _ => false end.

Fixpoint lstrip (s : string) : string :=
  match s with
  | EmptyString => EmptyString
  | String c s' => if isspace c then lstrip s' else s
  end.

Fixpoint rstrip (s : string) : string :=
  match s with
  | EmptyString => EmptyString
  | String c s' =>
      let r := rstrip s' in
      if is_empty r && isspace c then EmptyString else String c r
  end.

(** [s.strip()] *)
Definition strip (s : string) : string := lstrip (rstrip s).

(** [s.endswith(c)] for a one-character suffix [c]. *)
Fixpoint endswith (s : string) (c : ascii) : bool :=
  match s with
  | EmptyString => false
  | String a EmptyString => Ascii.eqb a c
  | String _ s' => endswith s' c
  end.

(** [s[:-1]] *)
Fixpoint drop_last (s : string) : string :=
  match s with
  | EmptyString => EmptyString
  | String _ EmptyString => EmptyString
  | String a s' => String a (drop_last s')
  end.

(** Longest prefix whose characters satisfy [p], and the rest. *)
Fixpoint span (p : ascii → bool) (s : string) : string * string :=
  match s with
  | EmptyString => (EmptyString, EmptyString)
  | String c s' =>
      if p c then let '(a, b) := span p s' in (String c a, b)
      else (EmptyString, s)
  end.

End Str.

(** ** The two regular expressions of [_parse_iso_datetime] *)

Module Re.

(** One position of a fixed-width pattern. *)
Inductive item : Type :=
| Digit                  (* \d *)
| Lit (c : ascii)        (* a literal character *)
| Sign.                  (* [+-] *)

Definition item_ok (i : item) (c : ascii) : bool :=
  match i with
  | Digit => Str.isdigit c
  | Lit a => Ascii.eqb c a
  | Sign => Ascii.eqb c "+" || Ascii.eqb c "-"
  end.

(** Match a fixed-width pattern at the start of [s]: the matched text and
    what follows it. *)
Fixpoint fixed (p : list item) (s : string) : option (string * string) :=
  match p with
  | [] => Some (EmptyString, s)
  | i :: p' =>
      match s with
      | EmptyString => None
      | String c s' =>
          if item_ok i c
          then '(m, r) ← fixed p' s'; Some (String c m, r)
          else None
      end
  end.

Definition newline : ascii := ascii_of_N 10.

(** [$] without [re.MULTILINE]: the end of the string, or just before a
    newline that is the last character. *)
Definition dollar (rest : string) : bool :=
  match rest with
  | EmptyString => true
  | String c EmptyString => Ascii.eqb c newline
  | _ => false
  end.

(* \d{4}-\d{2}-\d{2} *)
Definition p_date : list item :=
  [Digit; Digit; Digit; Digit; Lit "-"; Digit; Digit; Lit "-"; Digit; Digit].
(* \d{2}:\d{2} *)
Definition p_hm : list item := [Digit; Digit; Lit ":"; Digit; Digit].
(* [+-]\d{2}:\d{2} *)
Definition p_tz : list item := [Sign; Digit; Digit; Lit ":"; Digit; Digit].
(* \d{4}-\d{2}-\d{2}T\d{2}:\d{2}:\d{2} *)
Definition p_datetime_s : list item :=
  p_date ++ [Lit "T"] ++ p_hm ++ [Lit ":"; Digit; Digit].

(** The missing-seconds pattern
    [^(\d{4}-\d{2}-\d{2})T(\d{2}:\d{2})([+-]\d{2}:\d{2})?$]:
    a date (group 1), the letter T, hours and minutes (group 2) and an
    optional offset (group 3, [None] when it did not take part). *)
Definition missing_seconds (v : string)
  : option (string * string * option string) :=
  '(g1, r1) ← fixed p_date v;
  '(_, r2) ← fixed [Lit "T"] r1;
  '(g2, r3) ← fixed p_hm r2;
  let without_tz := if dollar r3 then Some (g1, g2, None) else None in
  match fixed p_tz r3 with
  | Some (g3, r4) => if dollar r4 then Some (g1, g2, Some g3) else without_tz
  | None => without_tz
  end.

(** The fractional-seconds pattern
    [^(\d{4}-\d{2}-\d{2}T\d{2}:\d{2}:\d{2})\.\d+(REST)$], where REST is
    any run of characters other than a newline: date and time to the
    second (group 1), a dot, one or more digits, then group 2.  Both repetitions are greedy; giving
    digits back from the first to the second does not move the position at
    which [$] is tried, so the greedy split is the only one to try. *)
Definition fraction (v : string) : option (string * string) :=
  '(g1, r1) ← fixed p_datetime_s v;
  '(_, r2) ← fixed [Lit "."] r1;
  let '(ds, r3) := Str.span Str.isdigit r2 in
  if Str.is_empty ds then None
  else
    let '(g2, r4) := Str.span (λ c, negb (Ascii.eqb c newline)) r3 in
    if dollar r4 then Some (g1, g2) else None.

End Re.

(** ** [datetime] values *)

(** A [datetime.datetime]: the seven calendar fields and the offset of its
    [tzinfo] from UTC in microseconds ([None] for a naive value). *)
Record datetime : Type := mkdatetime {
  year : Z; month : Z; day : Z;
  hour : Z; minute : Z; second : Z; microsecond : Z;
  tzinfo : option Z
}.

(** [dt.replace(tzinfo=tz)] *)
Definition replace_tzinfo (tz : option Z) (dt : datetime) : datetime :=
  mkdatetime (year dt) (month dt) (day dt)
             (hour dt) (minute dt) (second dt) (microsecond dt) tz.

(** Comparison of two naive values: field by field, most significant first. *)
Definition dt_compare (a b : datetime) : comparison :=
  match year a ?= year b with
  | Eq => match month a ?= month b with
    | Eq => match day a ?= day b with
      | Eq => match hour a ?= hour b with
        | Eq => match minute a ?= minute b with
          | Eq => match second a ?= second b with
            | Eq => microsecond a ?= microsecond b
            | c => c end
          | c => c end
        | c => c end
      | c => c end
    | c => c end
  | c => c end.

(** [a < b], [a <= b] and [a > b] on naive values. *)
Definition dt_ltb (a b : datetime) : bool :=
  match dt_compare a b with Lt => true | _ => false end.
Definition dt_leb (a b : datetime) : bool :=
  match dt_compare a b with Gt => false | _ => true end.
Definition dt_gtb (a b : datetime) : bool :=
  match dt_compare a b with Gt => true | _ => false end.

(** ** The platform *)

(** What the router takes from the platform it runs on. *)
Class Platform : Type := {
  (** [datetime.fromisoformat]: [None] is [ValueError]. *)
  fromisoformat : string → option datetime;
  (** The UTC offset, in microseconds, that the server's local time zone
      gives to a naive value; [None] when the platform cannot tell. *)
  local_utcoffset : datetime → option Z;
  (** [bson.ObjectId(s)]: [None] is [InvalidId]; an identifier is written by
      its canonical string, which is also [str(oid)]. *)
  ObjectId : string → option string
}.

(** ** A reference platform: calendar arithmetic and [fromisoformat] *)

Module Py.

Definition is_leap (y : Z) : bool :=
  (y mod 4 =? 0) && (negb (y mod 100 =? 0) || (y mod 400 =? 0)).

Definition days_before_year (y : Z) : Z :=
  let p := y - 1 in p * 365 + p / 4 - p / 100 + p / 400.

Definition DAYS_IN_MONTH : list Z :=
  [31; 28; 31; 30; 31; 30; 31; 31; 30; 31; 30; 31].

Definition days_in_month (y m : Z) : Z :=
  if (m =? 2) && is_leap y then 29
  else nth (Z.to_nat (m - 1)) DAYS_IN_MONTH 0.

Definition days_before_month (y m : Z) : Z :=
  fold_right Z.add 0 (firstn (Z.to_nat (m - 1)) DAYS_IN_MONTH)
  + (if (2 <? m) && is_leap y then 1 else 0).

(** Proleptic Gregorian ordinal, 0001-01-01 being day 1. *)
Definition ymd2ord (y m d : Z) : Z :=
  days_before_year y + days_before_month y m + d.

Definition MAXORDINAL : Z := 3652059.   (* 9999-12-31 *)

Definition ord2ymd (n : Z) : Z * Z * Z :=
  let n := n - 1 in
  let n400 := n / 146097 in let n := n mod 146097 in
  let n100 := n / 36524 in let n := n mod 36524 in
  let n4 := n / 1461 in let n := n mod 1461 in
  let n1 := n / 365 in let n := n mod 365 in
  let y := n400 * 400 + 1 + n100 * 100 + n4 * 4 + n1 in
  if (n1 =? 4) || (n100 =? 4) then (y - 1, 12, 31)
  else
    let leapyear := (n1 =? 3) && (negb (n4 =? 24) || (n100 =? 3)) in
    let leap_day m := if (2 <? m) && leapyear then 1 else 0 in
    let before m :=
      fold_right Z.add 0 (firstn (Z.to_nat (m - 1)) DAYS_IN_MONTH)
      + leap_day m in
    let m := Z.shiftr (n + 50) 5 in
    let m := if n <? before m then m - 1 else m in
    (y, m, n - before m + 1).

Definition US_PER_DAY : Z := 86400 * 1000000.

(** The wall-clock fields of [dt] as a count of microseconds, day 1 being
    0001-01-01. *)
Definition to_us (dt : datetime) : Z :=
  ymd2ord (year dt) (month dt) (day dt) * US_PER_DAY
  + ((hour dt * 60 + minute dt) * 60 + second dt) * 1000000
  + microsecond dt.

(** [dt + timedelta(microseconds=delta)]: [None] is [OverflowError]. *)
Definition add_us (dt : datetime) (delta : Z) : option datetime :=
  let t := to_us dt + delta in
  let days := t / US_PER_DAY in
  let rem := t mod US_PER_DAY in
  if (0 <? days) && (days <=? MAXORDINAL) then
    let '(y, m, d) := ord2ymd days in
    let secs := rem / 1000000 in
    Some (mkdatetime y m d (secs / 3600) (secs mod 3600 / 60) (secs mod 60)
                     (rem mod 1000000) (tzinfo dt))
  else None.

(** Value of a string of decimal digits. *)
Definition digit_val (c : ascii) : Z := Z.of_N (N_of_ascii c) - 48.
Fixpoint digits_val (acc : Z) (s : string) : Z :=
  match s with
  | EmptyString => acc
  | String c s' => digits_val (acc * 10 + digit_val c) s'
  end.

(** Exactly [n] digits at the start of [s]: their value and the rest. *)
Definition num (n : nat) (s : string) : option (Z * string) :=
  '(ds, r) ← Re.fixed (repeat Re.Digit n) s; Some (digits_val 0 ds, r).

Definition lit (c : ascii) (s : string) : option string :=
  '(_, r) ← Re.fixed [Re.Lit c] s; Some r.

(** [HH[:MM[:SS[.fff[fff]]]]] at the start of [s]. *)
Definition time_fields (s : string) : option (Z * Z * Z * Z * string) :=
  '(h, r) ← num 2 s;
  match r with
  | String ":" r =>
      '(mi, r) ← num 2 r;
      match r with
      | String ":" r =>
          '(sec, r) ← num 2 r;
          match r with
          | String "." r =>
              let '(ds, r) := Str.span Str.isdigit r in
              if (String.length ds =? 3)%nat
              then Some (h, mi, sec, digits_val 0 ds * 1000, r)
              else if (String.length ds =? 6)%nat
              then Some (h, mi, sec, digits_val 0 ds, r)
              else None
          | _ => Some (h, mi, sec, 0, r)
          end
      | _ => Some (h, mi, 0, 0, r)
      end
  | _ => Some (h, 0, 0, 0, r)
  end.

(** [+HH:MM[:SS[.ffffff]]] covering all of [s]: the offset in microseconds. *)
Definition tz_fields (s : string) : option Z :=
  match s with
  | String c r =>
      sign ← (if Ascii.eqb c "+" then Some 1
              else if Ascii.eqb c "-" then Some (-1) else None);
      '(h, r) ← num 2 r;
      r ← lit ":" r;
      '(mi, r) ← num 2 r;
      '(sec, us) ←
        match r with
        | EmptyString => Some (0, 0)
        | String ":" r =>
            '(sec, r) ← num 2 r;
            match r with
            | EmptyString => Some (sec, 0)
            | String "." r =>
                '(us, r) ← num 6 r;
                if Str.is_empty r then Some (sec, us) else None
            | _ => None
            end
        | _ => None
        end;
      let off := sign * (((h * 60 + mi) * 60 + sec) * 1000000 + us) in
      if (- US_PER_DAY <? off) && (off <? US_PER_DAY) then Some off else None
  | EmptyString => None
  end.

(** Range checks of the [datetime] constructor. *)
Definition fields_ok (y m d h mi s us : Z) : bool :=
  (1 <=? y) && (y <=? 9999) && (1 <=? m) && (m <=? 12)
  && (1 <=? d) && (d <=? days_in_month y m)
  && (h <=? 23) && (mi <=? 59) && (s <=? 59) && (us <=? 999999).

(** A reference [datetime.fromisoformat], following the grammar documented
    for Python 3.7 to 3.10:
    [YYYY-MM-DD[*HH[:MM[:SS[.fff[fff]]]][+HH:MM[:SS[.ffffff]]]]],
    where [*] is any single character.  [None] is [ValueError]. *)
Definition fromisoformat (s : string) : option datetime :=
  '(y, r) ← num 4 s;
  r ← lit "-" r;
  '(m, r) ← num 2 r;
  r ← lit "-" r;
  '(d, r) ← num 2 r;
  '(h, mi, sec, us, tz) ←
    match r with
    | EmptyString => Some (0, 0, 0, 0, None)
    | String _ r =>
        '(h, mi, sec, us, r) ← time_fields r;
        if Str.is_empty r then Some (h, mi, sec, us, None)
        else off ← tz_fields r; Some (h, mi, sec, us, Some off)
    end;
  if fields_ok y m d h mi sec us
  then Some (mkdatetime y m d h mi sec us tz)
  else None.

(** A server whose local time zone is UTC. *)
Definition local_utcoffset (_ : datetime) : option Z := Some 0.

Definition ishex (c : ascii) : bool :=
  let n := N_of_ascii c in
  (Str.isdigit c || ((97 <=? n) && (n <=? 102))
   || ((65 <=? n) && (n <=? 70)))%N.

Definition lower (c : ascii) : ascii :=
  let n := N_of_ascii c in
  if ((65 <=? n) && (n <=? 90))%N then ascii_of_N (n + 32) else c.

Fixpoint map_chars (f : ascii → ascii) (s : string) : string :=
  match s with
  | EmptyString => EmptyString
  | String c s' => String (f c) (map_chars f s')
  end.

(** An identifier is 24 hexadecimal digits, printed in lower case. *)
Definition ObjectId (s : string) : option string :=
  if (String.length s =? 24)%nat
     && forallb ishex (list_ascii_of_string s)
  then Some (map_chars lower s) else None.

Definition platform : Platform :=
  Build_Platform fromisoformat local_utcoffset ObjectId.

End Py.

(** ** Documents, collections and exceptions *)

(** The values a field of a stored document holds here: [None], a [str], or
    an [ObjectId] (written by its canonical string). *)
Inductive value : Type :=
| VNone
| VStr (s : string)
| VOid (o : string).

#[global] Instance value_eq_dec : EqDecision value.
Proof. solve_decision. Defined.

Abbreviation doc := (gmap string value).

(** [bool(v)] *)
Definition truthy (v : value) : bool :=
  match v with
  | VNone => false
  | VStr s => negb (Str.is_empty s)
  | VOid _ => true
  end.

(** [str(v)] *)
Definition py_str (v : value) : string :=
  match v with
  | VNone => "None"
  | VStr s => s
  | VOid o => o
  end.

Definition of_optional (o : option string) : value :=
  match o with Some s => VStr s | None => VNone end.

Inductive exn : Type :=
| ValueError (msg : string)
| KeyError (key : string)
| AttributeError
| TypeError
| OverflowError
| OSError
| InvalidId
| HTTPException (status_code : Z) (detail : string).

Inductive result (A : Type) : Type :=
| Ok (a : A)
| Raise (e : exn).
Arguments Ok {A} a.
Arguments Raise {A} e.

Definition bind {A B : Type} (m : result A) (k : A → result B) : result B :=
  match m with
  | Ok a => k a
  | Raise e => Raise e
  end.

Notation "'try!' x := m 'in' k" := (bind m (λ x, k))
  (at level 10, x name, m at level 100, k at level 200).

Definition is_ok {A : Type} (m : result A) : bool :=
  match m with Ok _ => true | Raise _ => false end.

(** [d[k]] and [d.get(k)] *)
Definition getitem (d : doc) (k : string) : result value :=
  match d !! k with
  | Some v => Ok v
  | None => Raise (KeyError k)
  end.

Definition get (d : doc) (k : string) : value := default VNone (d !! k).

(** [collection.find_one({"_id": key})]: the first document with that id. *)
Fixpoint find_one (c : list doc) (key : value) : option doc :=
  match c with
  | [] => None
  | d :: c' =>
      if decide (d !! "_id" = Some key) then Some d else find_one c' key
  end.

(** [collection.insert_one(d)], the store assigning [inserted_id]. *)
Definition insert_one (c : list doc) (d : doc) (inserted_id : string)
  : list doc :=
  c ++ [<["_id" := VOid inserted_id]> d].

(** [collection.update_one({"_id": key}, {"$set": update_doc})]: the fields
    of [update_doc] overwrite those of the first matching document. *)
Fixpoint update_one (c : list doc) (key : value) (update_doc : doc)
  : list doc :=
  match c with
  | [] => []
  | d :: c' =>
      if decide (d !! "_id" = Some key) then (update_doc ∪ d) :: c'
      else d :: update_one c' key update_doc
  end.

(** [collection.delete_one({"_id": key})]: the collection left and
    [deleted_count]. *)
Fixpoint delete_one (c : list doc) (key : value) : list doc * Z :=
  match c with
  | [] => ([], 0)
  | d :: c' =>
      if decide (d !! "_id" = Some key) then (c', 1)
      else let '(r, n) := delete_one c' key in (d :: r, n)
  end.

(** The two collections of [..database]. *)
Record database : Type := mkdatabase {
  announcements_collection : list doc;
  teachers_collection : list doc
}.

(** ** Request bodies *)

Module AnnouncementCreate.
Record t : Type := mk {
  message : string;
  start_date : option string;
  expiration_date : string;
  created_by : string
}.
End AnnouncementCreate.

Module AnnouncementUpdate.
Record t : Type := mk {
  message : option string;
  start_date : option string;
  expiration_date : option string
}.

(** A JSON body restricted to the values an [Optional[str]] field admits. *)
Inductive json : Type :=
| JNull
| JString (s : string).

Definition field (body : gmap string json) (k : string) : option string :=
  match body !! k with
  | Some (JString s) => Some s
  | Some JNull => None
  | None => None      (* the declared default, [= None] *)
  end.

(** The model built from a request body. *)
Definition parse (body : gmap string json) : t :=
  mk (field body "message") (field body "start_date")
     (field body "expiration_date").
End AnnouncementUpdate.

(** ** The router *)

Section Router.

Context {platform : Platform}.

Definition _parse_iso_datetime (value : value) : result datetime :=
  match value with
  | VNone => Raise (ValueError "Date value is None")
  | VOid _ => Raise AttributeError      (* no [strip] on an [ObjectId] *)
  | VStr value =>
      let v := Str.strip value in
      let v := if Str.endswith v "Z" then Str.drop_last v +:+ "+00:00"
               else v in
      (* First attempt direct parse *)
      match fromisoformat v with
      | Some dt => Ok dt
      | None =>
          (* the second [try] block: what it returns, or [None] when it
             falls through or its exception is swallowed *)
          let fallback : option datetime :=
            match Re.missing_seconds v with
            | Some (date_part, hm_part, tz_part) =>
                let tz_part := default "" tz_part in
                let v2 := date_part +:+ "T" +:+ hm_part +:+ ":00"
                          +:+ tz_part in
                fromisoformat v2
            | None =>
                match Re.fraction v with
                | Some (g1, g2) =>
                    let v3 := g1 +:+ g2 in
                    fromisoformat v3
                | None => None
                end
            end in
          match fallback with
          | Some dt => Ok dt
          | None => Raise (ValueError ("Invalid ISO datetime: " +:+ value))
          end
      end
  end.

(** [dt.astimezone(timezone.utc)].  A value already carrying the UTC
    [tzinfo] is returned as it is; any other is moved by its offset (the
    local zone's for a naive value), which overflows outside years
    1..9999. *)
Definition astimezone_utc (dt : datetime) : result datetime :=
  let shifted (off : Z) :=
    match Py.add_us dt (- off) with
    | Some d => Ok (replace_tzinfo (Some 0) d)
    | None => Raise OverflowError
    end in
  match tzinfo dt with
  | Some off => if off =? 0 then Ok dt else shifted off
  | None =>
      match local_utcoffset dt with
      | Some off => shifted off
      | None => Raise OSError
      end
  end.

Definition _to_utc_naive (dt : datetime) : result datetime :=
  match tzinfo dt with
  | None =>
      try! d := astimezone_utc dt in Ok (replace_tzinfo None d)
  | Some _ =>
      try! d := astimezone_utc dt in Ok (replace_tzinfo None d)
  end.

(** [datetime.now(timezone.utc)] when the clock reads [clock]. *)
Definition datetime_now_utc (clock : datetime) : datetime :=
  replace_tzinfo (Some 0) clock.

(** The body of the [for] loop of [get_active_announcements], [continue]
    being the rest of the loop. *)
Fixpoint active_loop (current_time_utc : datetime) (announcements : list doc)
  : result (list doc) :=
  match announcements with
  | [] => Ok []
  | announcement :: rest =>
      let continue := active_loop current_time_utc rest in
      match (try! e := getitem announcement "expiration_date" in
             try! expiration_date := _parse_iso_datetime e in
             _to_utc_naive expiration_date) with
      | Raise _ => continue   (* skip malformed records *)
      | Ok expiration_date =>
          if dt_ltb expiration_date current_time_utc then continue
          else
            let started : bool :=
              if truthy (get announcement "start_date") then
                match (try! s := getitem announcement "start_date" in
                       try! start_date := _parse_iso_datetime s in
                       _to_utc_naive start_date) with
                | Ok start_date => negb (dt_gtb start_date current_time_utc)
                | Raise _ => false   (* malformed start date *)
                end
              else true in
            if started then
              try! id := getitem announcement "_id" in
              try! active_announcements := continue in
              Ok (<["_id" := VStr (py_str id)]> announcement
                  :: active_announcements)
            else continue
      end
  end.

Definition get_active_announcements (clock : datetime) (db : database)
  : result (list doc) :=
  try! current_time_utc := _to_utc_naive (datetime_now_utc clock) in
  active_loop current_time_utc (announcements_collection db).

(** The loop of [get_all_announcements]. *)
Fixpoint stringify_ids (announcements : list doc) : result (list doc) :=
  match announcements with
  | [] => Ok []
  | announcement :: rest =>
      try! id := getitem announcement "_id" in
      try! rest' := stringify_ids rest in
      Ok (<["_id" := VStr (py_str id)]> announcement :: rest')
  end.

Definition unauthorized {A : Type} : result A :=
  Raise (HTTPException 401 "Unauthorized").

Definition get_all_announcements (username : string) (db : database)
  : result (list doc) :=
  match find_one (teachers_collection db) (VStr username) with
  | None => unauthorized
  | Some _ => stringify_ids (announcements_collection db)
  end.

(** The [try] block validating an expiration date, shared word for word by
    [create_announcement] and [update_announcement]. *)
Definition check_expiration (clock : datetime) (expiration_date : string)
  : result unit :=
  try! expiration_date := _parse_iso_datetime (VStr expiration_date) in
  try! expiration_date_utc := _to_utc_naive expiration_date in
  try! now_utc := _to_utc_naive (datetime_now_utc clock) in
  if dt_leb expiration_date_utc now_utc
  then Raise (HTTPException 400 "Expiration date must be in the future")
  else Ok tt.

(** The document [create_announcement] builds from the request. *)
Definition announcement_doc (announcement : AnnouncementCreate.t)
    (created_at : string) : doc :=
  <["message" := VStr (AnnouncementCreate.message announcement)]>
  (<["start_date" :=
      of_optional (AnnouncementCreate.start_date announcement)]>
  (<["expiration_date" :=
      VStr (AnnouncementCreate.expiration_date announcement)]>
  (<["created_by" := VStr (AnnouncementCreate.created_by announcement)]>
  (<["created_at" := VStr created_at]> ∅)))).

(** [created_at] is [datetime.now().isoformat()] and [inserted_id] the
    identifier the store assigns. *)
Definition create_announcement (clock : datetime) (created_at : string)
    (inserted_id : string) (announcement : AnnouncementCreate.t)
    (db : database) : result doc * database :=
  match find_one (teachers_collection db)
                 (VStr (AnnouncementCreate.created_by announcement)) with
  | None => (unauthorized, db)
  | Some _ =>
      (* Validate expiration date *)
      match check_expiration clock
              (AnnouncementCreate.expiration_date announcement) with
      | Raise _ =>
          (Raise (HTTPException 400 "Invalid expiration date format"), db)
      | Ok _ =>
          (* Validate start date if provided *)
          let start_checked : result unit :=
            if truthy (of_optional
                         (AnnouncementCreate.start_date announcement))
            then
              try! _d := _parse_iso_datetime
                 (of_optional (AnnouncementCreate.start_date announcement)) in
              Ok tt
            else Ok tt in
          match start_checked with
          | Raise _ =>
              (Raise (HTTPException 400 "Invalid start date format"), db)
          | Ok _ =>
              let announcement_doc :=
                announcement_doc announcement created_at in
              let db' :=
                mkdatabase
                  (insert_one (announcements_collection db)
                              announcement_doc inserted_id)
                  (teachers_collection db) in
              (Ok (<["_id" := VStr (py_str (VOid inserted_id))]>
                     announcement_doc), db')
          end
      end
  end.

Definition not_found {A : Type} : result A :=
  Raise (HTTPException 404 "Announcement not found").

(** The part of [update_announcement] that builds [update_doc]. *)
Definition build_update_doc (clock : datetime)
    (announcement : AnnouncementUpdate.t) : result doc :=
  let update_doc : doc := ∅ in
  let update_doc :=
    match AnnouncementUpdate.message announcement with
    | Some m => <["message" := VStr m]> update_doc
    | None => update_doc
    end in
  try! update_doc :=
    match AnnouncementUpdate.start_date announcement with
    | Some s =>
        match _parse_iso_datetime (VStr s) with
        | Ok _ => Ok (<["start_date" := VStr s]> update_doc)
        | Raise _ => Raise (HTTPException 400 "Invalid start date format")
        end
    | None => Ok update_doc
    end in
  match AnnouncementUpdate.expiration_date announcement with
  | Some e =>
      match check_expiration clock e with
      | Ok _ => Ok (<["expiration_date" := VStr e]> update_doc)
      | Raise _ =>
          Raise (HTTPException 400 "Invalid expiration date format")
      end
  | None => Ok update_doc
  end.

Definition update_announcement (clock : datetime) (announcement_id : string)
    (announcement : AnnouncementUpdate.t) (username : string)
    (db : database) : result doc * database :=
  match find_one (teachers_collection db) (VStr username) with
  | None => (unauthorized, db)
  | Some _ =>
      match ObjectId announcement_id with
      | None => (not_found, db)
      | Some oid =>
          match find_one (announcements_collection db) (VOid oid) with
          | None => (not_found, db)
          | Some existing_announcement =>
              match build_update_doc clock announcement with
              | Raise e => (Raise e, db)
              | Ok update_doc =>
                  let db' :=
                    if decide (update_doc = ∅) then db
                    else mkdatabase
                           (update_one (announcements_collection db)
                                       (VOid oid) update_doc)
                           (teachers_collection db) in
                  (* Return updated announcement *)
                  match find_one (announcements_collection db')
                                 (VOid oid) with
                  | None => (Raise TypeError, db')
                  | Some updated_announcement =>
                      (try! id := getitem updated_announcement "_id" in
                       Ok (<["_id" := VStr (py_str id)]>
                             updated_announcement), db')
                  end
              end
          end
      end
  end.

Definition delete_announcement (announcement_id : string)
    (username : string) (db : database) : result string * database :=
  match find_one (teachers_collection db) (VStr username) with
  | None => (unauthorized, db)
  | Some _ =>
      match ObjectId announcement_id with
      | None => (not_found, db)
      | Some oid =>
          let '(c, deleted_count) :=
            delete_one (announcements_collection db) (VOid oid) in
          if deleted_count =? 0 then (not_found, db)
          else (Ok "Announcement deleted successfully",
                mkdatabase c (teachers_collection db))
      end
  end.

End Router.

(** ** The specification's vocabulary *)

Section Vocabulary.

Context {platform : Platform}.

(** A stored field parsed and brought to naive UTC, as both date fields are
    before any comparison. *)
Definition utc_of (v : value) : result datetime :=
  try! d := _parse_iso_datetime v in _to_utc_naive d.

(** The current instant of a call made when the clock reads [clock]. *)
Definition current_instant (clock : datetime) : datetime :=
  replace_tzinfo None clock.

(** A field is absent when its key is missing or its value is null. *)
Definition absent (a : doc) (k : string) : Prop := get a k = VNone.

(** A field is unset when it is absent or the empty string. *)
Definition unset (a : doc) (k : string) : Prop := truthy (get a k) = false.

Definition malformed (a : doc) (k : string) : Prop :=
  is_ok (_parse_iso_datetime (get a k)) = false.

(** The active-window predicate in the words of the specification (4.2):
    the expiration parses and is not before [now], and the start is absent
    or parses and is not after [now]. *)
Definition active_window_spec (now : datetime) (a : doc) : Prop :=
  ∃ e, utc_of (get a "expiration_date") = Ok e ∧ dt_leb now e = true ∧
       (absent a "start_date" ∨
        ∃ s, utc_of (get a "start_date") = Ok s ∧ dt_leb s now = true).

(** The same with an unset start in place of an absent one. *)
Definition active_window (now : datetime) (a : doc) : Prop :=
  ∃ e, utc_of (get a "expiration_date") = Ok e ∧ dt_leb now e = true ∧
       (unset a "start_date" ∨
        ∃ s, utc_of (get a "start_date") = Ok s ∧ dt_leb s now = true).

(** The predicate in the words of the testable properties (8), with a
    strict comparison on the expiration side. *)
Definition active_window_strict (now : datetime) (a : doc) : Prop :=
  ∃ e, utc_of (get a "expiration_date") = Ok e ∧ dt_ltb now e = true ∧
       (absent a "start_date" ∨
        ∃ s, utc_of (get a "start_date") = Ok s ∧ dt_leb s now = true).

(** [active_window] as a test on one document. *)
Definition in_window (now : datetime) (a : doc) : bool :=
  match utc_of (get a "expiration_date") with
  | Ok e =>
      dt_leb now e
      && (negb (truthy (get a "start_date"))
          || match utc_of (get a "start_date") with
             | Ok s => dt_leb s now
             | Raise _ => false
             end)
  | Raise _ => false
  end.

(** A document as the listings return it: its identifier as a string. *)
Definition with_str_id (a : doc) : doc :=
  <["_id" := VStr (py_str (get a "_id"))]> a.

(** Every document of a collection carries an identifier. *)
Definition has_ids (c : list doc) : Prop :=
  Forall (λ d : doc, is_Some (d !! "_id")) c.

Definition known_teacher (username : string) (db : database) : Prop :=
  is_Some (find_one (teachers_collection db) (VStr username)).

(** An expiration date that [create] and [update] accept at [clock]: it
    parses, and its UTC value is strictly after the current instant. *)
Definition valid_expiration (clock : datetime) (s : string) : Prop :=
  ∃ e, utc_of (VStr s) = Ok e
       ∧ dt_gtb e (current_instant clock) = true.

Definition parses (s : string) : Prop :=
  is_ok (_parse_iso_datetime (VStr s)) = true.

(** When the specification has [create] reject a request: the expiration
    date is not acceptable, or the start date is present and does not
    parse. *)
Definition create_rejected_spec (clock : datetime)
    (r : AnnouncementCreate.t) : Prop :=
  ¬ valid_expiration clock (AnnouncementCreate.expiration_date r)
  ∨ ∃ s, AnnouncementCreate.start_date r = Some s ∧ ¬ parses s.

(** The same, for a start date that is present, not empty and does not
    parse. *)
Definition create_rejected (clock : datetime)
    (r : AnnouncementCreate.t) : Prop :=
  ¬ valid_expiration clock (AnnouncementCreate.expiration_date r)
  ∨ ∃ s, AnnouncementCreate.start_date r = Some s ∧ s ≠ "" ∧ ¬ parses s.

(** A provided field of an update fails validation. *)
Definition update_rejected (clock : datetime)
    (u : AnnouncementUpdate.t) : Prop :=
  (∃ s, AnnouncementUpdate.start_date u = Some s ∧ ¬ parses s)
  ∨ (∃ e, AnnouncementUpdate.expiration_date u = Some e
          ∧ ¬ valid_expiration clock e).

(** The statuses of the error taxonomy. *)
Definition InvalidInput {A : Type} (r : result A) : Prop :=
  ∃ detail, r = Raise (HTTPException 400 detail).

(** The trailing [Z] of a string turned into [+00:00]. *)
Definition z_to_offset (v : string) : string :=
  if Str.endswith v "Z" then Str.drop_last v +:+ "+00:00" else v.

(** The three strategies of the parser (4.1), each on a string whose
    trailing [Z] has been replaced. *)
Definition strategy_direct (v : string) : option datetime :=
  fromisoformat v.

Definition strategy_missing_seconds (v : string) : option datetime :=
  match Re.missing_seconds v with
  | Some (date_part, hm_part, tz_part) =>
      fromisoformat
        (date_part +:+ "T" +:+ hm_part +:+ ":00" +:+ default "" tz_part)
  | None => None
  end.

Definition strategy_fraction_stripped (v : string) : option datetime :=
  match Re.fraction v with
  | Some (g1, g2) => fromisoformat (g1 +:+ g2)
  | None => None
  end.

(** The first strategy of a list that succeeds. *)
Fixpoint first_success (l : list (string → option datetime)) (v : string)
  : option datetime :=
  match l with
  | [] => None
  | f :: l' =>
      match f v with
      | Some d => Some d
      | None => first_success l' v
      end
  end.

(** The parser in the words of the specification: the strategies in order
    on the input prepared by [prepare], the error carrying the original
    string. *)
Definition parse_by_strategies (prepare : string → string) (input : string)
  : result datetime :=
  match first_success
          [strategy_direct; strategy_missing_seconds;
           strategy_fraction_stripped]
          (z_to_offset (prepare input)) with
  | Some d => Ok d
  | None => Raise (ValueError ("Invalid ISO datetime: " +:+ input))
  end.

(** The fields of a document that [update] can set. *)
Definition updatable : list string :=
  ["message"; "start_date"; "expiration_date"].

(** The field a request supplies under key [k]. *)
Definition supplied (u : AnnouncementUpdate.t) (k : string)
  : option string :=
  if decide (k = "message") then AnnouncementUpdate.message u
  else if decide (k = "start_date") then AnnouncementUpdate.start_date u
  else if decide (k = "expiration_date")
       then AnnouncementUpdate.expiration_date u
  else None.

(** No two documents of a collection carry the same identifier. *)
Definition unique_ids (c : list doc) : Prop :=
  NoDup ((λ d : doc, d !! "_id") <$> c).

(** The collection holds no document under the identifier [id]. *)
Definition fresh_id (id : string) (c : list doc) : Prop :=
  find_one c (VOid id) = None.

(** The message a successful delete returns. *)
Definition deleted : result string := Ok "Announcement deleted successfully".

(** The two details with which create and update answer InvalidInput. *)
Definition bad_expiration_format : exn :=
  HTTPException 400 "Invalid expiration date format".
Definition bad_start_format : exn :=
  HTTPException 400 "Invalid start date format".

(** Strings made of whitespace only, and of digits only. *)
Fixpoint all_space (s : string) : bool :=
  match s with
  | EmptyString => true
  | String c s' => Str.isspace c && all_space s'
  end.

Fixpoint all_digits (s : string) : bool :=
  match s with
  | EmptyString => true
  | String c s' => Str.isdigit c && all_digits s'
  end.

End Vocabulary.

(** ** Sample data on the reference platform *)

Module Sample.

(** The clock reads 2026-01-20 12:00:00 UTC. *)
Definition clock : datetime := mkdatetime 2026 1 20 12 0 0 0 None.

Definition teacher : doc := {[ "_id" := VStr "t1" ]}.

Definition announcement (id : string) (start_date expiration_date : value)
  : doc :=
  <["_id" := VOid id]>
  (<["message" := VStr "Exam tomorrow"]>
  (<["start_date" := start_date]>
  (<["expiration_date" := expiration_date]>
  (<["created_by" := VStr "t1"]>
  (<["created_at" := VStr "2026-01-19T08:00:00"]> ∅))))).

(** Expires in one hour. *)
Definition upcoming : doc :=
  announcement "65a1b2c3d4e5f60718293a01" VNone
               (VStr "2026-01-20T13:00:00Z").
(** Expired one minute ago. *)
Definition expired : doc :=
  announcement "65a1b2c3d4e5f60718293a02" VNone
               (VStr "2026-01-20T11:59:00Z").
(** Stored with an empty start date. *)
Definition empty_start : doc :=
  announcement "65a1b2c3d4e5f60718293a03" (VStr "")
               (VStr "2026-01-20T13:00:00Z").
(** Expires at the very instant the clock shows. *)
Definition at_boundary : doc :=
  announcement "65a1b2c3d4e5f60718293a04" VNone
               (VStr "2026-01-20T12:00:00Z").
(** Stored with an expiration date that is not a date. *)
Definition bad_expiration : doc :=
  announcement "65a1b2c3d4e5f60718293a05" VNone (VStr "not-a-date").
(** Started yesterday, with a start date that can be removed or kept. *)
Definition started : doc :=
  announcement "65a1b2c3d4e5f60718293a06" (VStr "2026-01-19T09:00:00Z")
               (VStr "2026-02-01T00:00:00Z").

Definition db : database :=
  mkdatabase
    [upcoming; expired; empty_start; at_boundary; bad_expiration; started]
    [teacher].

(** The requests of the scenarios. *)
Definition create_ok : AnnouncementCreate.t :=
  AnnouncementCreate.mk "Exam tomorrow" None "2026-01-20T13:00:00Z" "t1".
Definition create_empty_start : AnnouncementCreate.t :=
  AnnouncementCreate.mk "Exam tomorrow" (Some "") "2026-01-20T13:00:00Z"
                        "t1".
Definition update_bad_date : AnnouncementUpdate.t :=
  AnnouncementUpdate.mk (Some "Moved to Friday") None (Some "not-a-date").
Definition update_dates : AnnouncementUpdate.t :=
  AnnouncementUpdate.mk None (Some " 2026-01-21T09:00Z")
                        (Some "2026-03-01T00:00:00.5Z").

(** The identifier of [started], as a client may write it. *)
Definition started_id : string := "65A1B2C3D4E5F60718293A06".

Definition created_at : string := "2026-01-20T12:00:00".
Definition inserted_id : string := "65a1b2c3d4e5f60718293a07".

(** A request by someone who is no teacher, with dates that are no dates. *)
Definition create_by_ghost : AnnouncementCreate.t :=
  AnnouncementCreate.mk "Free pizza" (Some "soon") "never" "ghost".
(** A request whose two dates are both invalid. *)
Definition create_both_bad : AnnouncementCreate.t :=
  AnnouncementCreate.mk "Exam tomorrow" (Some "soon") "never" "t1".
Definition update_both_bad : AnnouncementUpdate.t :=
  AnnouncementUpdate.mk None (Some "soon") (Some "never").
(** A request whose expiration date is a date, but a past one. *)
Definition create_past : AnnouncementCreate.t :=
  AnnouncementCreate.mk "Exam yesterday" None "2026-01-19T12:00:00Z" "t1".
Definition update_past : AnnouncementUpdate.t :=
  AnnouncementUpdate.mk None None (Some "2026-01-19T12:00:00Z").
Definition update_message : AnnouncementUpdate.t :=
  AnnouncementUpdate.mk (Some "Moved to Friday") None None.
(** An identifier that is well formed but names no stored document. *)
Definition unknown_id : string := "65a1b2c3d4e5f60718293aff".
(** Starts tomorrow, after it has expired today. *)
Definition inverted : doc :=
  announcement "65a1b2c3d4e5f60718293a08" (VStr "2026-01-21T00:00:00Z")
               (VStr "2026-01-20T18:00:00Z").
Definition db_inverted : database := mkdatabase [inverted] [teacher].

(** One and two hours after [clock]. *)
Definition clock_1pm : datetime := mkdatetime 2026 1 20 13 0 0 0 None.
Definition clock_2pm : datetime := mkdatetime 2026 1 20 14 0 0 0 None.

(** A space and a tab; a newline. *)
Definition blanks : string := String " " (String (ascii_of_N 9) "").
Definition line_end : string := String (ascii_of_N 10) "".

End Sample.

(** ** Facts about strings *)

Module StrFacts.

Lemma is_empty_app (s t : string) :
  Str.is_empty t = false → Str.is_empty (s +:+ t) = false.
Proof. destruct s; simpl; auto. Qed.

Lemma rstrip_app (s t : string) :
  Str.is_empty (Str.rstrip t) = false →
  Str.rstrip (s +:+ t) = s +:+ Str.rstrip t.
Proof.
  intros Ht. induction s as [|c s IH]; simpl; [reflexivity|].
  rewrite IH, (is_empty_app s _ Ht). reflexivity.
Qed.

Lemma lstrip_app (s : string) (c : ascii) (t : string) :
  Str.isspace c = false →
  Str.lstrip (s +:+ String c t) = Str.lstrip s +:+ String c t.
Proof.
  intros Hc. induction s as [|a s IH]; simpl.
  - rewrite Hc. reflexivity.
  - destruct (Str.isspace a); [exact IH | reflexivity].
Qed.

Lemma endswith_app (s : string) (a : ascii) (t : string) (c : ascii) :
  Str.endswith (s +:+ String a t) c = Str.endswith (String a t) c.
Proof.
  induction s as [|b s IH]; [reflexivity|].
  change (String b s +:+ String a t) with (String b (s +:+ String a t)).
  rewrite <- IH. destruct s; reflexivity.
Qed.

Lemma drop_last_app (s : string) (a : ascii) :
  Str.drop_last (s +:+ String a EmptyString) = s.
Proof.
  induction s as [|b s IH]; [reflexivity|].
  change (String b s +:+ String a EmptyString)
    with (String b (s +:+ String a EmptyString)).
  simpl. rewrite IH. destruct s; reflexivity.
Qed.

(** Stripping a string that ends in Z only trims it on the left. *)
Lemma strip_Z (s : string) :
  Str.strip (s +:+ "Z") = Str.lstrip s +:+ "Z".
Proof.
  unfold Str.strip. rewrite rstrip_app by reflexivity.
  apply lstrip_app. reflexivity.
Qed.

Lemma strip_offset (s : string) :
  Str.strip (s +:+ "+00:00") = Str.lstrip s +:+ "+00:00".
Proof.
  unfold Str.strip. rewrite rstrip_app by reflexivity.
  apply lstrip_app. reflexivity.
Qed.

End StrFacts.

(** ** Facts about the two patterns *)

Module ReFacts.

Lemma fixed_app (p q : list Re.item) (s : string) :
  Re.fixed (p ++ q) s =
  '(m1, r1) ← Re.fixed p s;
  '(m2, r2) ← Re.fixed q r1;
  Some (m1 +:+ m2, r2).
Proof.
  revert s. induction p as [|i p IH]; intros s; simpl.
  - destruct (Re.fixed q s) as [[m2 r2]|]; reflexivity.
  - destruct s as [|c s]; [reflexivity|].
    destruct (Re.item_ok i c); [|reflexivity].
    rewrite IH. destruct (Re.fixed p s) as [[m1 r1]|]; simpl; [|reflexivity].
    destruct (Re.fixed q r1) as [[m2 r2]|]; reflexivity.
Qed.

(** After hours and minutes the missing-seconds pattern wants the end of
    the string or a sign, the fractional one a colon: no string matches
    both. *)
Lemma patterns_exclusive (v : string) :
  is_Some (Re.missing_seconds v) → Re.fraction v = None.
Proof.
  unfold Re.missing_seconds, Re.fraction, Re.p_datetime_s.
  generalize Re.p_date, [Re.Lit "T"], Re.p_hm. intros pd pt phm.
  rewrite fixed_app.
  destruct (Re.fixed pd v) as [[g1 r1]|]; simpl;
    [|intros [? ?]; discriminate].
  rewrite fixed_app.
  destruct (Re.fixed pt r1) as [[gt r2]|]; simpl;
    [|intros [? ?]; discriminate].
  rewrite fixed_app.
  destruct (Re.fixed phm r2) as [[g2 r3]|]; simpl;
    [|intros [? ?]; discriminate].
  destruct r3 as [|c r3]; [reflexivity|].
  intros Hm.
  destruct (Ascii.eqb c ":") eqn:Hc; [|reflexivity].
  apply Ascii.eqb_eq in Hc. subst c. exfalso.
  simpl in Hm. destruct r3; destruct Hm as [? Hm]; discriminate Hm.
Qed.

End ReFacts.

(** ** The timestamp parser *)

Section ParserFacts.

Context {platform : Platform}.

(** The parser is the chain of the three strategies on the stripped input
    whose trailing Z has been replaced. *)
Lemma parse_normal_form (input : string) :
  _parse_iso_datetime (VStr input) = parse_by_strategies Str.strip input.
Proof.
  unfold _parse_iso_datetime, parse_by_strategies, z_to_offset.
  cbv zeta. unfold first_success, strategy_direct,
    strategy_missing_seconds, strategy_fraction_stripped.
  set (v := if Str.endswith (Str.strip input) "Z"
            then Str.drop_last (Str.strip input) +:+ "+00:00"
            else Str.strip input).
  destruct (fromisoformat v) as [dt|]; [reflexivity|].
  destruct (Re.missing_seconds v) as [[[date_part hm_part] tz_part]|] eqn:Hm.
  - destruct (fromisoformat _) as [dt|]; [reflexivity|].
    rewrite (ReFacts.patterns_exclusive v) by (rewrite Hm; eauto).
    reflexivity.
  - destruct (Re.fraction v) as [[g1 g2]|]; [|reflexivity].
    destruct (fromisoformat _); reflexivity.
Qed.

Lemma z_to_offset_strip_Z (s : string) :
  z_to_offset (Str.strip (s +:+ "Z")) = Str.lstrip s +:+ "+00:00".
Proof.
  unfold z_to_offset. rewrite StrFacts.strip_Z.
  rewrite StrFacts.endswith_app, StrFacts.drop_last_app. reflexivity.
Qed.

Lemma z_to_offset_strip_offset (s : string) :
  z_to_offset (Str.strip (s +:+ "+00:00")) = Str.lstrip s +:+ "+00:00".
Proof.
  unfold z_to_offset. rewrite StrFacts.strip_offset.
  rewrite StrFacts.endswith_app. reflexivity.
Qed.

(** C4 (as amended).  For every input string the parser trims the
    surrounding whitespace, replaces a trailing Z by +00:00 and then tries,
    in this order, the direct ISO-8601 parse, the missing-seconds pattern
    with seconds set to :00 and the pattern that drops the fractional
    seconds; it returns the first success and, when all three fail, raises
    the error that carries the original string. *)
Theorem parser_strategies_in_order (input : string) :
  _parse_iso_datetime (VStr input) =
  match
    first_success
      [strategy_direct; strategy_missing_seconds; strategy_fraction_stripped]
      (z_to_offset (Str.strip input))
  with
  | Some d => Ok d
  | None => Raise (ValueError ("Invalid ISO datetime: " +:+ input))
  end.
Proof. exact (parse_normal_form input). Qed.

(** C5 (as amended).  A string ending in Z is accepted exactly when the
    same string with the Z replaced by +00:00 is accepted, with the same
    value; and that is exactly when one of the three strategies accepts
    that string with its leading whitespace trimmed. *)
Theorem trailing_Z_is_utc_offset (s : string) :
  (∀ d, _parse_iso_datetime (VStr (s +:+ "Z")) = Ok d
        ↔ _parse_iso_datetime (VStr (s +:+ "+00:00")) = Ok d)
  ∧ (∀ d, _parse_iso_datetime (VStr (s +:+ "Z")) = Ok d
          ↔ first_success
              [strategy_direct; strategy_missing_seconds;
               strategy_fraction_stripped]
              (Str.lstrip s +:+ "+00:00") = Some d).
Proof.
  rewrite !parse_normal_form. unfold parse_by_strategies.
  rewrite z_to_offset_strip_Z, z_to_offset_strip_offset.
  destruct (first_success _ _) as [d'|]; split; intros d; split;
    intros H; try discriminate H; congruence.
Qed.

End ParserFacts.

(** ** Comparison of naive values *)

Module DtFacts.

Lemma compare_antisym (a b : datetime) :
  dt_compare a b = CompOpp (dt_compare b a).
Proof.
  unfold dt_compare.
  rewrite (Z.compare_antisym (year a)), (Z.compare_antisym (month a)),
    (Z.compare_antisym (day a)), (Z.compare_antisym (hour a)),
    (Z.compare_antisym (minute a)), (Z.compare_antisym (second a)),
    (Z.compare_antisym (microsecond a)).
  destruct (year a ?= year b); simpl; try reflexivity.
  destruct (month a ?= month b); simpl; try reflexivity.
  destruct (day a ?= day b); simpl; try reflexivity.
  destruct (hour a ?= hour b); simpl; try reflexivity.
  destruct (minute a ?= minute b); simpl; try reflexivity.
  destruct (second a ?= second b); simpl; try reflexivity.
  destruct (microsecond a ?= microsecond b); reflexivity.
Qed.

(** [not (e < now)] is [now <= e]. *)
Lemma ltb_false_leb (e now : datetime) :
  dt_ltb e now = false ↔ dt_leb now e = true.
Proof.
  unfold dt_ltb, dt_leb. rewrite (compare_antisym now e).
  destruct (dt_compare e now); simpl; split; congruence.
Qed.

(** [not (s > now)] is [s <= now]. *)
Lemma gtb_negb_leb (s now : datetime) :
  negb (dt_gtb s now) = dt_leb s now.
Proof. unfold dt_gtb, dt_leb. destruct (dt_compare s now); reflexivity. Qed.

(** [not (e <= now)] is [e > now]. *)
Lemma leb_false_gtb (e now : datetime) :
  dt_leb e now = false ↔ dt_gtb e now = true.
Proof.
  unfold dt_gtb, dt_leb. destruct (dt_compare e now); split; congruence.
Qed.

(** [now < e] is [e > now]. *)
Lemma ltb_gtb (e now : datetime) : dt_ltb now e = dt_gtb e now.
Proof.
  unfold dt_ltb, dt_gtb. rewrite (compare_antisym now e).
  destruct (dt_compare e now); reflexivity.
Qed.

(** A strict comparison fails on equal instants. *)
Lemma ltb_irrefl (a b : datetime) :
  dt_compare a b = Eq → dt_ltb a b = false ∧ dt_ltb b a = false.
Proof.
  intros H. unfold dt_ltb. rewrite (compare_antisym b a), H. auto.
Qed.

End DtFacts.

(** ** The listings *)

Section ListingFacts.

Context {platform : Platform}.

(** The clock read in UTC needs no conversion. *)
Lemma now_utc_naive (clock : datetime) :
  _to_utc_naive (datetime_now_utc clock) = Ok (current_instant clock).
Proof. reflexivity. Qed.

(** A stored field read by subscript, then parsed and normalised. *)
Lemma stored_field (a : doc) (k : string) :
  (try! e := getitem a k in
   try! d := _parse_iso_datetime e in
   _to_utc_naive d)
  = match a !! k with
    | Some v => utc_of v
    | None => Raise (KeyError k)
    end.
Proof. unfold getitem. destruct (a !! k); reflexivity. Qed.

Lemma utc_of_VNone : is_ok (utc_of VNone) = false.
Proof. reflexivity. Qed.

Lemma with_str_id_eq (a : doc) (id : value) :
  a !! "_id" = Some id → with_str_id a = <["_id" := VStr (py_str id)]> a.
Proof. intros H. unfold with_str_id, get. rewrite H. reflexivity. Qed.

(** One turn of the loop: the document is kept when it is in the window. *)
Lemma active_loop_step (now : datetime) (a : doc) (c : list doc) :
  active_loop now (a :: c)
  = if in_window now a
    then try! id := getitem a "_id" in
         try! rest := active_loop now c in
         Ok (<["_id" := VStr (py_str id)]> a :: rest)
    else active_loop now c.
Proof.
  cbn [active_loop]. rewrite !stored_field. unfold in_window, get.
  destruct (a !! "expiration_date") as [ve|]; [|reflexivity].
  cbn [default from_option id]. destruct (utc_of ve) as [e|err]; [|reflexivity].
  destruct (dt_ltb e now) eqn:Hlt.
  { assert (dt_leb now e = false) as ->; [|reflexivity].
    destruct (dt_leb now e) eqn:Hle; [|reflexivity].
    apply DtFacts.ltb_false_leb in Hle. congruence. }
  apply DtFacts.ltb_false_leb in Hlt. rewrite Hlt. cbn [andb].
  destruct (a !! "start_date") as [vs|]; cbn [default from_option id]; [|reflexivity].
  destruct (truthy vs); cbn [negb orb]; [|reflexivity].
  destruct (utc_of vs) as [s|err]; [|reflexivity].
  rewrite DtFacts.gtb_negb_leb. reflexivity.
Qed.

Lemma filter_cons_bool (f : doc → bool) (a : doc) (c : list doc) :
  filter (λ a, f a = true) (a :: c)
  = if f a then a :: filter (λ a, f a = true) c
    else filter (λ a, f a = true) c.
Proof.
  rewrite filter_cons. destruct (f a); destruct (decide _); congruence.
Qed.

(** The loop keeps exactly the documents in the window. *)
Lemma active_loop_filter (now : datetime) (c : list doc) :
  has_ids c →
  active_loop now c
  = Ok (with_str_id <$> filter (λ a, in_window now a = true) c).
Proof.
  induction 1 as [|a c [id Hid] Hc IH]; [reflexivity|].
  rewrite active_loop_step, filter_cons_bool, IH.
  destruct (in_window now a); [|reflexivity].
  unfold getitem. rewrite Hid. cbn [bind]. rewrite fmap_cons.
  rewrite (with_str_id_eq a id Hid). reflexivity.
Qed.

End ListingFacts.

(** ** The active listing and the unfiltered listing *)

Section WindowFacts.

Context {platform : Platform}.

Lemma in_window_active (now : datetime) (a : doc) :
  in_window now a = true ↔ active_window now a.
Proof.
  unfold in_window, active_window, unset.
  destruct (utc_of (get a "expiration_date")) as [e|err].
  - rewrite andb_true_iff, orb_true_iff, negb_true_iff. split.
    + intros [He Hs]. exists e. split; [reflexivity|]. split; [exact He|].
      destruct Hs as [Hs|Hs]; [left; exact Hs|right].
      destruct (utc_of (get a "start_date")) as [s|]; [|discriminate Hs].
      exists s. auto.
    + intros (e' & [= <-] & He & Hs). split; [exact He|].
      destruct Hs as [Hs|(s & -> & Hs)]; auto.
  - split; [discriminate|]. intros (e & He & _). discriminate He.
Qed.

Lemma get_with_str_id (a : doc) (k : string) :
  k ≠ "_id" → get (with_str_id a) k = get a k.
Proof.
  intros Hk. unfold with_str_id, get at 1 3.
  rewrite lookup_insert_ne by congruence. reflexivity.
Qed.

(** The window looks at the two date fields only. *)
Lemma in_window_with_str_id (now : datetime) (a : doc) :
  in_window now (with_str_id a) = in_window now a.
Proof. unfold in_window. rewrite !get_with_str_id by discriminate. reflexivity. Qed.

Lemma listed_iff (now : datetime) (c : list doc) (a : doc) :
  a ∈ c →
  with_str_id a ∈ with_str_id <$> filter (λ a, in_window now a = true) c
  ↔ in_window now a = true.
Proof.
  intros Ha. rewrite list_elem_of_fmap. split.
  - intros (b & Hab & Hb). apply list_elem_of_filter in Hb as [Hb _].
    rewrite <- in_window_with_str_id, Hab, in_window_with_str_id. exact Hb.
  - intros Hw. exists a. split; [reflexivity|].
    apply list_elem_of_filter. auto.
Qed.

Lemma stringify_ids_map (c : list doc) :
  has_ids c → stringify_ids c = Ok (with_str_id <$> c).
Proof.
  induction 1 as [|a c [id Hid] Hc IH]; [reflexivity|].
  cbn [stringify_ids]. unfold getitem. rewrite Hid, IH. cbn [bind].
  rewrite fmap_cons, (with_str_id_eq a id Hid). reflexivity.
Qed.

Lemma get_active_filter (clock : datetime) (db : database) :
  has_ids (announcements_collection db) →
  get_active_announcements clock db
  = Ok (with_str_id <$>
        filter (λ a, in_window (current_instant clock) a = true)
               (announcements_collection db)).
Proof.
  intros H. unfold get_active_announcements. rewrite now_utc_naive.
  cbn [bind]. apply active_loop_filter, H.
Qed.

(** C1 (as amended).  For every stored announcement and every call
    instant, the active listing includes the announcement if and only if
    its expiration date parses and, brought to UTC, is not before the
    current instant, and its start date is unset (absent, null or the
    empty string) or parses and, brought to UTC, is not after the current
    instant. *)
Theorem list_active_window (clock : datetime) (db : database) :
  has_ids (announcements_collection db) →
  ∃ acts,
    get_active_announcements clock db = Ok acts ∧
    ∀ a, a ∈ announcements_collection db →
         with_str_id a ∈ acts ↔ active_window (current_instant clock) a.
Proof.
  intros H. eexists. split; [apply get_active_filter, H|].
  intros a Ha. rewrite (listed_iff _ _ _ Ha). apply in_window_active.
Qed.

(** C2 (as amended).  The active predicate of the listing holds if and
    only if the expiration is not before the current instant and the start
    is unset or not after it, under UTC-normalised comparison; an
    announcement whose expiration equals the current instant exactly is
    still listed, and one whose expiration is before it is not. *)
Theorem list_active_boundary (clock : datetime) (db : database) :
  has_ids (announcements_collection db) →
  ∃ acts,
    get_active_announcements clock db = Ok acts ∧
    ∀ a, a ∈ announcements_collection db →
      let now := current_instant clock in
      (with_str_id a ∈ acts ↔
         ∃ e, utc_of (get a "expiration_date") = Ok e
              ∧ dt_ltb e now = false
              ∧ (unset a "start_date" ∨
                 ∃ s, utc_of (get a "start_date") = Ok s
                      ∧ dt_gtb s now = false))
      ∧ (∀ e, utc_of (get a "expiration_date") = Ok e →
              dt_compare e now = Eq → unset a "start_date" →
              with_str_id a ∈ acts)
      ∧ (∀ e, utc_of (get a "expiration_date") = Ok e →
              dt_ltb e now = true → with_str_id a ∉ acts).
Proof.
  intros H. eexists. split; [apply get_active_filter, H|].
  intros a Ha now. rewrite (listed_iff _ _ _ Ha), in_window_active.
  fold now. unfold active_window.
  assert (Hgt : ∀ s, dt_gtb s now = false ↔ dt_leb s now = true).
  { intros s. rewrite <- DtFacts.gtb_negb_leb, negb_true_iff. reflexivity. }
  split; [|split].
  - split; intros (e & He & Hle & Hs); exists e; (split; [exact He|]).
    + split; [apply DtFacts.ltb_false_leb, Hle|].
      destruct Hs as [Hs|(s & Hs & Hsn)]; [left; exact Hs|right].
      exists s. split; [exact Hs|apply Hgt, Hsn].
    + split; [apply DtFacts.ltb_false_leb, Hle|].
      destruct Hs as [Hs|(s & Hs & Hsn)]; [left; exact Hs|right].
      exists s. split; [exact Hs|apply Hgt, Hsn].
  - intros e He Heq Hs. apply (listed_iff _ _ _ Ha), in_window_active.
    exists e. split; [exact He|]. split; [|left; exact Hs].
    apply DtFacts.ltb_false_leb. apply (DtFacts.ltb_irrefl _ _ Heq).
  - intros e He Hlt Hin.
    apply (listed_iff _ _ _ Ha), in_window_active in Hin.
    destruct Hin as (e' & He' & Hle & _).
    rewrite He in He'. injection He' as <-.
    apply DtFacts.ltb_false_leb in Hle. congruence.
Qed.

(** C8 (as amended).  For every stored record whose expiration date is
    unparseable, or whose start date is set (not absent, null or empty)
    and unparseable, the active listing leaves the record out without
    raising, while the unfiltered listing, for a known teacher, still
    returns it. *)
Theorem malformed_dates_skipped (clock : datetime) (username : string)
    (db : database) (a : doc) :
  has_ids (announcements_collection db) →
  a ∈ announcements_collection db →
  known_teacher username db →
  malformed a "expiration_date"
  ∨ (¬ unset a "start_date" ∧ malformed a "start_date") →
  (∃ acts, get_active_announcements clock db = Ok acts
           ∧ with_str_id a ∉ acts)
  ∧ (∃ every, get_all_announcements username db = Ok every
              ∧ with_str_id a ∈ every).
Proof.
  intros H Ha [t Ht] Hbad. split.
  - eexists. split; [apply get_active_filter, H|].
    rewrite (listed_iff _ _ _ Ha), in_window_active.
    intros (e & He & _ & Hs). unfold malformed, utc_of in *.
    destruct Hbad as [Hbad|[Hset Hbad]].
    + destruct (_parse_iso_datetime (get a "expiration_date"));
        [discriminate Hbad|discriminate He].
    + destruct Hs as [Hs|(s & Hs & _)]; [contradiction|].
      destruct (_parse_iso_datetime (get a "start_date"));
        [discriminate Hbad|discriminate Hs].
  - unfold get_all_announcements. rewrite Ht.
    eexists. split; [apply stringify_ids_map, H|].
    apply list_elem_of_fmap_2, Ha.
Qed.

End WindowFacts.

(** ** The collection operations *)

Module StoreFacts.

Lemma find_one_id (c : list doc) (key : value) (d : doc) :
  find_one c key = Some d → d !! "_id" = Some key.
Proof.
  induction c as [|d0 c IH]; simpl; [discriminate|].
  destruct (decide _) as [H|H]; [congruence | exact IH].
Qed.

(** After an update that leaves the identifier alone, the document found
    under the key is the old one overwritten by the update. *)
Lemma find_one_update_one (c : list doc) (key : value) (u d : doc) :
  u !! "_id" = None →
  find_one c key = Some d →
  find_one (update_one c key u) key = Some (u ∪ d).
Proof.
  intros Hu. induction c as [|d0 c IH]; simpl; [discriminate|].
  destruct (decide (d0 !! "_id" = Some key)) as [H|H].
  - intros [= ->]. simpl.
    rewrite decide_True; [reflexivity|].
    rewrite lookup_union_r by exact Hu. exact H.
  - intros Hf. simpl. rewrite decide_False by exact H. exact (IH Hf).
Qed.

(** An update touches at most one document, in place. *)
Lemma update_one_pointwise (c : list doc) (key : value) (u : doc) :
  Forall2 (λ d d' : doc, d' = d ∨ d' = u ∪ d) c (update_one c key u).
Proof.
  induction c as [|d0 c IH]; simpl; [constructor|].
  destruct (decide _).
  - constructor; [right; reflexivity|].
    apply Forall2_same_length_lookup_2; [reflexivity|].
    intros i x y Hx Hy. left. congruence.
  - constructor; [left; reflexivity | exact IH].
Qed.

End StoreFacts.

(** ** Creating and updating *)

Section WriteFacts.

Context {platform : Platform}.

(** The expiration check passes exactly on a valid expiration date. *)
Lemma check_expiration_cases (clock : datetime) (s : string) :
  (check_expiration clock s = Ok tt ∧ valid_expiration clock s)
  ∨ (is_ok (check_expiration clock s) = false
     ∧ ¬ valid_expiration clock s).
Proof.
  unfold check_expiration, valid_expiration, utc_of.
  destruct (_parse_iso_datetime (VStr s)) as [d|err]; cbn [bind];
    [|right; split; [reflexivity|intros (e & He & _); discriminate He]].
  destruct (_to_utc_naive d) as [e|err]; cbn [bind];
    [|right; split; [reflexivity|intros (e & He & _); discriminate He]].
  rewrite now_utc_naive. cbn [bind].
  destruct (dt_leb e (current_instant clock)) eqn:Hle.
  - right. split; [reflexivity|]. intros (e' & [= <-] & Hgt).
    apply DtFacts.leb_false_gtb in Hgt. congruence.
  - left. split; [reflexivity|]. exists e. split; [reflexivity|].
    apply DtFacts.leb_false_gtb, Hle.
Qed.

Lemma not_parses (s : string) :
  ¬ parses s ↔ is_ok (_parse_iso_datetime (VStr s)) = false.
Proof. unfold parses. destruct (is_ok _); split; congruence. Qed.

(** What [create_announcement] does for a known teacher. *)
Lemma create_cases (clock : datetime) (created_at inserted_id : string)
    (req : AnnouncementCreate.t) (db : database) :
  known_teacher (AnnouncementCreate.created_by req) db →
  let r := create_announcement clock created_at inserted_id req db in
  let d := announcement_doc req created_at in
  (create_rejected clock req ∧ InvalidInput (fst r) ∧ snd r = db)
  ∨ (¬ create_rejected clock req
     ∧ fst r = Ok (<["_id" := VStr inserted_id]> d)
     ∧ snd r = mkdatabase
                 (announcements_collection db
                  ++ [<["_id" := VOid inserted_id]> d])
                 (teachers_collection db)).
Proof.
  intros [t Ht]. unfold create_announcement, create_rejected. rewrite Ht.
  destruct (check_expiration_cases clock
              (AnnouncementCreate.expiration_date req)) as [[-> Hv]|[Hc Hv]].
  2:{ left. destruct (check_expiration _ _); [discriminate Hc|].
      split; [left; exact Hv|]. split; [eexists|]; reflexivity. }
  unfold insert_one.
  destruct (AnnouncementCreate.start_date req) as [s|] eqn:Hs;
    cbn [of_optional truthy Str.is_empty negb fst snd py_str].
  2:{ right. split; [|split; reflexivity].
      intros [H|(s & Hs' & _)]; [contradiction|discriminate]. }
  destruct s as [|c s]; cbn [Str.is_empty negb fst snd].
  { right. split; [|split; reflexivity].
    intros [H|(s & [= <-] & Hne & _)]; [contradiction|congruence]. }
  destruct (_parse_iso_datetime (VStr (String c s))) as [dt|err] eqn:Hp;
    cbn [bind fst snd].
  - right. split; [|split; reflexivity].
    intros [H|(s' & [= <-] & _ & Hn)]; [contradiction|].
    apply not_parses in Hn. rewrite Hp in Hn. discriminate Hn.
  - left. split; [|split; [eexists|]; reflexivity].
    right. exists (String c s). split; [reflexivity|].
    split; [discriminate|]. apply not_parses. rewrite Hp. reflexivity.
Qed.

(** C3 (as amended).  For every create call by a known teacher, the
    operation fails with InvalidInput and persists nothing if the
    expiration date fails to parse or its UTC value is not strictly after
    the current instant (equality is rejected), or if the start date is
    present, not empty and fails to parse; otherwise the record is
    persisted and returned. *)
Theorem create_validation (clock : datetime) (created_at inserted_id : string)
    (req : AnnouncementCreate.t) (db : database) :
  known_teacher (AnnouncementCreate.created_by req) db →
  let r := create_announcement clock created_at inserted_id req db in
  let d := announcement_doc req created_at in
  (create_rejected clock req → InvalidInput (fst r) ∧ snd r = db)
  ∧ (¬ create_rejected clock req →
     fst r = Ok (<["_id" := VStr inserted_id]> d)
     ∧ snd r = mkdatabase
                 (announcements_collection db
                  ++ [<["_id" := VOid inserted_id]> d])
                 (teachers_collection db)).
Proof.
  intros Ht r d.
  destruct (create_cases clock created_at inserted_id req db Ht)
    as [(Hr & Hi & Hdb)|(Hr & Hok & Hdb)]; split; intros H;
    try contradiction; auto.
Qed.

(** What [build_update_doc] does: it fails on a provided field that does
    not validate, and otherwise holds exactly the supplied fields. *)
Lemma build_update_cases (clock : datetime) (req : AnnouncementUpdate.t) :
  (update_rejected clock req ∧ InvalidInput (build_update_doc clock req))
  ∨ (¬ update_rejected clock req
     ∧ ∃ u, build_update_doc clock req = Ok u
            ∧ ∀ k, u !! k = VStr <$> supplied req k).
Proof.
  unfold build_update_doc, update_rejected. destruct req as [m s e].
  cbn [AnnouncementUpdate.message AnnouncementUpdate.start_date
       AnnouncementUpdate.expiration_date].
  assert (Hstart :
    (∃ s0, s = Some s0 ∧ ¬ parses s0)
    ∨ (¬ (∃ s0, s = Some s0 ∧ ¬ parses s0)
       ∧ ∀ s0, s = Some s0 → ∃ dt, _parse_iso_datetime (VStr s0) = Ok dt)).
  { destruct s as [s0|]; [|right; split; [intros (? & ? & _)|intros ?];
                              discriminate].
    destruct (_parse_iso_datetime (VStr s0)) as [dt|err] eqn:Hp.
    - right. split.
      + intros (s1 & [= <-] & Hn). apply not_parses in Hn.
        rewrite Hp in Hn. discriminate Hn.
      + intros s1 [= <-]. eauto.
    - left. exists s0. split; [reflexivity|].
      apply not_parses. rewrite Hp. reflexivity. }
  destruct Hstart as [(s0 & -> & Hn)|[Hs Hsp]].
  { left. split; [left; eauto|]. apply not_parses in Hn.
    destruct (_parse_iso_datetime (VStr s0)); [discriminate Hn|].
    eexists. reflexivity. }
  assert (Hexp :
    (∃ e0, e = Some e0 ∧ ¬ valid_expiration clock e0
           ∧ is_ok (check_expiration clock e0) = false)
    ∨ (¬ (∃ e0, e = Some e0 ∧ ¬ valid_expiration clock e0)
       ∧ ∀ e0, e = Some e0 → check_expiration clock e0 = Ok tt)).
  { destruct e as [e0|]; [|right; split; [intros (? & ? & _)|intros ?];
                              discriminate].
    destruct (check_expiration_cases clock e0) as [[Hc Hv]|[Hc Hv]].
    - right. split; [intros (e1 & [= <-] & Hn); contradiction|].
      intros e1 [= <-]. exact Hc.
    - left. eauto. }
  destruct Hexp as [(e0 & -> & Hn & Hc)|[He Hep]].
  { left. split; [right; eauto|].
    destruct (check_expiration clock e0); [discriminate Hc|].
    destruct s as [s0|]; [destruct (Hsp s0 eq_refl) as [dt ->]|];
      eexists; reflexivity. }
  right. split; [intros [H|H]; contradiction|].
  destruct s as [s0|]; [destruct (Hsp s0 eq_refl) as [dt ->]|];
    (destruct e as [e0|]; [rewrite (Hep e0 eq_refl)|]);
    cbn [bind]; eexists; (split; [reflexivity|]);
    intros k; unfold supplied;
    cbn [AnnouncementUpdate.message AnnouncementUpdate.start_date
         AnnouncementUpdate.expiration_date];
    destruct m; repeat case_decide; subst; simplify_map_eq; reflexivity.
Qed.

Lemma supplied_id (req : AnnouncementUpdate.t) : supplied req "_id" = None.
Proof. reflexivity. Qed.

Lemma with_str_id_found (c : list doc) (oid : string) (d : doc) :
  find_one c (VOid oid) = Some d →
  (try! id := getitem d "_id" in Ok (<["_id" := VStr (py_str id)]> d))
  = Ok (with_str_id d).
Proof.
  intros H. apply StoreFacts.find_one_id in H.
  unfold getitem. rewrite H. cbn [bind].
  rewrite (with_str_id_eq d _ H). reflexivity.
Qed.

(** What [update_announcement] does for a known teacher and an existing
    announcement. *)
Lemma update_found (clock : datetime) (announcement_id username : string)
    (req : AnnouncementUpdate.t) (db : database)
    (oid : string) (existing : doc) :
  known_teacher username db →
  ObjectId announcement_id = Some oid →
  find_one (announcements_collection db) (VOid oid) = Some existing →
  let r := update_announcement clock announcement_id req username db in
  (update_rejected clock req ∧ InvalidInput (fst r) ∧ snd r = db)
  ∨ (¬ update_rejected clock req
     ∧ ∃ u, (∀ k, u !! k = VStr <$> supplied req k)
            ∧ fst r = Ok (with_str_id (u ∪ existing))
            ∧ find_one (announcements_collection (snd r)) (VOid oid)
              = Some (u ∪ existing)
            ∧ snd r = if decide (u = ∅) then db
                      else mkdatabase
                             (update_one (announcements_collection db)
                                         (VOid oid) u)
                             (teachers_collection db)).
Proof.
  intros [t Ht] Ho Hf. unfold update_announcement. rewrite Ht, Ho, Hf.
  destruct (build_update_cases clock req)
    as [(Hr & detail & ->)|(Hr & u & -> & Hu)].
  { left. split; [exact Hr|]. split; [eexists|]; reflexivity. }
  right. split; [exact Hr|]. exists u. split; [exact Hu|].
  destruct (decide (u = ∅)) as [->|Hne].
  - rewrite Hf, (with_str_id_found _ _ _ Hf), (left_id_L ∅ (∪)).
    cbn [fst snd]. rewrite Hf. auto.
  - cbn [announcements_collection].
    assert (Hid : u !! "_id" = None) by (rewrite Hu; reflexivity).
    pose proof (StoreFacts.find_one_update_one _ _ u _ Hid Hf) as Hf'.
    rewrite Hf', (with_str_id_found _ _ _ Hf'). cbn [fst snd].
    cbn [announcements_collection]. auto.
Qed.

(** The store after any update call: untouched, or one document
    overwritten by the supplied fields. *)
Lemma update_store_cases (clock : datetime)
    (announcement_id username : string) (req : AnnouncementUpdate.t)
    (db : database) :
  let db' := snd (update_announcement clock announcement_id req username db) in
  db' = db
  ∨ ∃ oid u, (∀ k, u !! k = VStr <$> supplied req k)
             ∧ db' = mkdatabase
                       (update_one (announcements_collection db)
                                   (VOid oid) u)
                       (teachers_collection db).
Proof.
  unfold update_announcement.
  destruct (find_one (teachers_collection db) _); [|left; reflexivity].
  destruct (ObjectId announcement_id) as [oid|]; [|left; reflexivity].
  destruct (find_one (announcements_collection db) _);
    [|left; reflexivity].
  destruct (build_update_cases clock req)
    as [(Hr & detail & ->)|(Hr & u & -> & Hu)]; [left; reflexivity|].
  destruct (decide (u = ∅)).
  - left. destruct (find_one _ _); reflexivity.
  - right. exists oid, u. split; [exact Hu|].
    destruct (find_one _ _); reflexivity.
Qed.

(** C6.  For every existing announcement and known teacher, an update
    that provides no field writes nothing to the store and returns the
    record as it is, its identifier printed as a string. *)
Theorem update_without_fields (clock : datetime)
    (announcement_id username : string) (db : database)
    (oid : string) (existing : doc) :
  known_teacher username db →
  ObjectId announcement_id = Some oid →
  find_one (announcements_collection db) (VOid oid) = Some existing →
  update_announcement clock announcement_id
    (AnnouncementUpdate.mk None None None) username db
  = (Ok (<["_id" := VStr oid]> existing), db).
Proof.
  intros [t Ht] Ho Hf. unfold update_announcement. rewrite Ht, Ho, Hf.
  change (build_update_doc clock (AnnouncementUpdate.mk None None None))
    with (Ok (∅ : doc)).
  cbv beta iota. rewrite decide_True by reflexivity. rewrite Hf.
  rewrite (with_str_id_found _ _ _ Hf).
  rewrite (with_str_id_eq _ _ (StoreFacts.find_one_id _ _ _ Hf)).
  reflexivity.
Qed.

(** C7.  For every update call, by a known teacher on an existing
    announcement, in which a provided field fails validation (a start date
    that does not parse, or an expiration date that does not parse or is
    not strictly in the future), the whole operation fails with
    InvalidInput and the store is left as it was, whatever the other
    provided fields are. *)
Theorem update_rejects_whole_request (clock : datetime)
    (announcement_id username : string) (req : AnnouncementUpdate.t)
    (db : database) (oid : string) (existing : doc) :
  known_teacher username db →
  ObjectId announcement_id = Some oid →
  find_one (announcements_collection db) (VOid oid) = Some existing →
  update_rejected clock req →
  let r := update_announcement clock announcement_id req username db in
  InvalidInput (fst r) ∧ snd r = db.
Proof.
  intros Ht Ho Hf Hr r.
  destruct (update_found clock announcement_id username req db oid existing
              Ht Ho Hf) as [(_ & H)|(Hn & _)];
    [exact H | contradiction].
Qed.

(** C9.  No update call removes a field once set: in every stored
    document, a field among message, start_date and expiration_date that
    the request leaves null keeps its stored value, and one that held a
    string still holds a string afterwards; and a request body giving such
    a field as null is the same request as the body without it. *)
Theorem update_never_clears (clock : datetime)
    (announcement_id username : string) (req : AnnouncementUpdate.t)
    (db : database) :
  let db' := snd (update_announcement clock announcement_id req username db) in
  Forall2
    (λ d d' : doc, ∀ k, k ∈ updatable →
       (supplied req k = None → d' !! k = d !! k)
       ∧ (∀ s, d !! k = Some (VStr s) → ∃ s', d' !! k = Some (VStr s')))
    (announcements_collection db) (announcements_collection db')
  ∧ (∀ (body : gmap string AnnouncementUpdate.json) k, k ∈ updatable →
       AnnouncementUpdate.parse (<[k := AnnouncementUpdate.JNull]> body)
       = AnnouncementUpdate.parse (delete k body)).
Proof.
  intros db'. split.
  - assert (Hsame : ∀ c : list doc,
      Forall2 (λ d d' : doc, ∀ k, k ∈ updatable →
         (supplied req k = None → d' !! k = d !! k)
         ∧ (∀ s, d !! k = Some (VStr s) → ∃ s', d' !! k = Some (VStr s')))
        c c).
    { intros c. apply Forall2_same_length_lookup_2; [reflexivity|].
      intros i x y Hx Hy k _. assert (x = y) as -> by congruence.
      split; eauto. }
    destruct (update_store_cases clock announcement_id username req db)
      as [Heq|(oid & u & Hu & Heq)]; fold db' in Heq; rewrite Heq;
      [apply Hsame|].
    cbn [announcements_collection].
    eapply Forall2_impl; [apply StoreFacts.update_one_pointwise|].
    intros d d' [-> | ->] k Hk; [split; eauto|].
    destruct (supplied req k) as [s0|] eqn:Hsup.
    + split; [discriminate|]. intros s _. exists s0.
      apply lookup_union_Some_l. rewrite Hu, Hsup. reflexivity.
    + rewrite lookup_union_r by (rewrite Hu, Hsup; reflexivity).
      split; eauto.
  - intros body k Hk. unfold AnnouncementUpdate.parse, AnnouncementUpdate.field.
    rewrite !lookup_insert, !lookup_delete.
    repeat case_decide; reflexivity.
Qed.

(** C10.  For every successful create or update, the start_date and
    expiration_date fields of the persisted record, and of the record
    returned, are the very strings the client supplied: parsing and UTC
    normalisation serve validation and comparison only and never rewrite
    what is stored. *)
Theorem stored_dates_verbatim :
  (∀ clock created_at inserted_id req db returned,
     fst (create_announcement clock created_at inserted_id req db)
     = Ok returned →
     ∃ stored : doc,
       announcements_collection
         (snd (create_announcement clock created_at inserted_id req db))
       = (announcements_collection db ++ [stored])%list
       ∧ stored !! "start_date"
         = Some (of_optional (AnnouncementCreate.start_date req))
       ∧ stored !! "expiration_date"
         = Some (VStr (AnnouncementCreate.expiration_date req))
       ∧ returned !! "start_date" = stored !! "start_date"
       ∧ returned !! "expiration_date" = stored !! "expiration_date")
  ∧ (∀ clock announcement_id req username db returned,
     fst (update_announcement clock announcement_id req username db)
     = Ok returned →
     ∃ oid stored,
       ObjectId announcement_id = Some oid
       ∧ find_one
           (announcements_collection
              (snd (update_announcement clock announcement_id req
                                        username db)))
           (VOid oid) = Some stored
       ∧ returned = with_str_id stored
       ∧ (∀ s, AnnouncementUpdate.start_date req = Some s →
               stored !! "start_date" = Some (VStr s))
       ∧ (∀ e, AnnouncementUpdate.expiration_date req = Some e →
               stored !! "expiration_date" = Some (VStr e))).
Proof.
  split.
  - intros clock created_at inserted_id req db returned Hok.
    assert (Ht : known_teacher (AnnouncementCreate.created_by req) db).
    { unfold known_teacher. unfold create_announcement in Hok.
      destruct (find_one (teachers_collection db) _); [eauto|].
      discriminate Hok. }
    destruct (create_cases clock created_at inserted_id req db Ht)
      as [(_ & [detail Hi] & _)|(_ & Hr & Hdb)].
    { rewrite Hi in Hok. discriminate Hok. }
    rewrite Hr in Hok. injection Hok as <-. rewrite Hdb.
    eexists. split; [reflexivity|]. unfold announcement_doc.
    repeat split; by simplify_map_eq.
  - intros clock announcement_id req username db returned Hok.
    assert (Ht : known_teacher username db).
    { unfold known_teacher. unfold update_announcement in Hok.
      destruct (find_one (teachers_collection db) _); [eauto|].
      discriminate Hok. }
    destruct (ObjectId announcement_id) as [oid|] eqn:Ho.
    2:{ unfold update_announcement in Hok. destruct Ht as [t Ht].
        rewrite Ht, Ho in Hok. discriminate Hok. }
    destruct (find_one (announcements_collection db) (VOid oid))
      as [existing|] eqn:Hf.
    2:{ unfold update_announcement in Hok. destruct Ht as [t Ht].
        rewrite Ht, Ho, Hf in Hok. discriminate Hok. }
    destruct (update_found clock announcement_id username req db oid
                existing Ht Ho Hf)
      as [(_ & [detail Hi] & _)|(_ & u & Hu & Hr & Hf' & _)].
    { rewrite Hi in Hok. discriminate Hok. }
    rewrite Hr in Hok. injection Hok as <-.
    exists oid, (u ∪ existing). split; [reflexivity|].
    split; [exact Hf'|]. split; [reflexivity|].
    split; intros x Hx; apply lookup_union_Some_l; rewrite Hu;
      unfold supplied; cbn; rewrite Hx; reflexivity.
Qed.

End WriteFacts.

(** ** The properties at concrete inputs, on the reference platform *)

Lemma sample_has_ids : has_ids (announcements_collection Sample.db).
Proof.
  unfold has_ids, Sample.db, announcements_collection.
  repeat (constructor; [eexists; reflexivity|]). constructor.
Defined.

Lemma sample_teacher : known_teacher "t1" Sample.db.
Proof. eexists. reflexivity. Defined.

(** The scenario of the specification: of an announcement expired a minute
    ago and one expiring in an hour, the active listing returns the latter. *)
Example list_active_scenario :
  get_active_announcements (platform := Py.platform) Sample.clock
    (mkdatabase [Sample.expired; Sample.upcoming] [Sample.teacher])
  = Ok [with_str_id Sample.upcoming].
Proof. vm_compute. reflexivity. Qed.

Lemma list_active_window_witness :
  has_ids (announcements_collection Sample.db)
  ∧ ∃ acts,
      get_active_announcements (platform := Py.platform)
        Sample.clock Sample.db = Ok acts
      ∧ ∀ a, a ∈ announcements_collection Sample.db →
             with_str_id a ∈ acts
             ↔ active_window (platform := Py.platform)
                 (current_instant Sample.clock) a.
Proof.
  split; [exact sample_has_ids|].
  exact (list_active_window (platform := Py.platform)
           Sample.clock Sample.db sample_has_ids).
Defined.

(** C1, as stated, fails on an announcement stored with an empty start
    date: the start date is not absent and does not parse, yet the
    announcement is listed. *)
Lemma list_active_empty_start_counterexample :
  ∃ acts,
    get_active_announcements (platform := Py.platform)
      Sample.clock Sample.db = Ok acts
    ∧ Sample.empty_start ∈ announcements_collection Sample.db
    ∧ with_str_id Sample.empty_start ∈ acts
    ∧ ¬ active_window_spec (platform := Py.platform)
          (current_instant Sample.clock) Sample.empty_start.
Proof.
  eexists. split; [apply get_active_filter, sample_has_ids|].
  assert (Hin : Sample.empty_start ∈ announcements_collection Sample.db).
  { apply list_elem_of_In. simpl. tauto. }
  split; [exact Hin|]. split.
  - apply (listed_iff _ _ _ Hin). vm_compute. reflexivity.
  - intros (e & _ & _ & [Habs|(s & Hs & _)]).
    + vm_compute in Habs. discriminate Habs.
    + vm_compute in Hs. discriminate Hs.
Qed.

Lemma list_active_boundary_witness :
  has_ids (announcements_collection Sample.db)
  ∧ ∃ acts,
      get_active_announcements (platform := Py.platform)
        Sample.clock Sample.db = Ok acts
      ∧ ∀ a, a ∈ announcements_collection Sample.db →
          (with_str_id a ∈ acts ↔
             ∃ e, utc_of (platform := Py.platform)
                    (get a "expiration_date") = Ok e
                  ∧ dt_ltb e (current_instant Sample.clock) = false
                  ∧ (unset a "start_date" ∨
                     ∃ s, utc_of (platform := Py.platform)
                            (get a "start_date") = Ok s
                          ∧ dt_gtb s (current_instant Sample.clock) = false))
          ∧ (∀ e, utc_of (platform := Py.platform)
                    (get a "expiration_date") = Ok e →
                  dt_compare e (current_instant Sample.clock) = Eq →
                  unset a "start_date" →
                  with_str_id a ∈ acts)
          ∧ (∀ e, utc_of (platform := Py.platform)
                    (get a "expiration_date") = Ok e →
                  dt_ltb e (current_instant Sample.clock) = true →
                  with_str_id a ∉ acts).
Proof.
  split; [exact sample_has_ids|].
  exact (list_active_boundary (platform := Py.platform)
           Sample.clock Sample.db sample_has_ids).
Defined.

(** C2, as stated, fails on an announcement whose expiration is the current
    instant: it is listed, although the current instant is not strictly
    before its expiration. *)
Lemma list_active_boundary_counterexample :
  ∃ acts e,
    get_active_announcements (platform := Py.platform)
      Sample.clock Sample.db = Ok acts
    ∧ Sample.at_boundary ∈ announcements_collection Sample.db
    ∧ utc_of (platform := Py.platform)
        (get Sample.at_boundary "expiration_date") = Ok e
    ∧ dt_compare e (current_instant Sample.clock) = Eq
    ∧ with_str_id Sample.at_boundary ∈ acts
    ∧ ¬ active_window_strict (platform := Py.platform)
          (current_instant Sample.clock) Sample.at_boundary.
Proof.
  eexists. eexists. split; [apply get_active_filter, sample_has_ids|].
  assert (Hin : Sample.at_boundary ∈ announcements_collection Sample.db).
  { apply list_elem_of_In. simpl. tauto. }
  split; [exact Hin|]. split; [vm_compute; reflexivity|].
  split; [reflexivity|]. split.
  - apply (listed_iff _ _ _ Hin). vm_compute. reflexivity.
  - intros (e & He & Hlt & _). vm_compute in He. injection He as <-.
    vm_compute in Hlt. discriminate Hlt.
Qed.

Lemma create_validation_witness :
  known_teacher "t1" Sample.db
  ∧ (create_rejected (platform := Py.platform) Sample.clock Sample.create_ok →
     InvalidInput
       (fst (create_announcement (platform := Py.platform) Sample.clock
               Sample.created_at Sample.inserted_id Sample.create_ok
               Sample.db))
     ∧ snd (create_announcement (platform := Py.platform) Sample.clock
              Sample.created_at Sample.inserted_id Sample.create_ok
              Sample.db) = Sample.db)
  ∧ (¬ create_rejected (platform := Py.platform) Sample.clock
         Sample.create_ok →
     fst (create_announcement (platform := Py.platform) Sample.clock
            Sample.created_at Sample.inserted_id Sample.create_ok Sample.db)
     = Ok (<["_id" := VStr Sample.inserted_id]>
             (announcement_doc Sample.create_ok Sample.created_at))
     ∧ snd (create_announcement (platform := Py.platform) Sample.clock
              Sample.created_at Sample.inserted_id Sample.create_ok
              Sample.db)
       = mkdatabase
           (announcements_collection Sample.db
            ++ [<["_id" := VOid Sample.inserted_id]>
                  (announcement_doc Sample.create_ok Sample.created_at)])
           (teachers_collection Sample.db)).
Proof.
  split; [exact sample_teacher|].
  exact (create_validation (platform := Py.platform) Sample.clock
           Sample.created_at Sample.inserted_id Sample.create_ok Sample.db
           sample_teacher).
Defined.

(** The scenario of the specification: a known teacher creates an
    announcement expiring in an hour; the record comes back with its
    identifier and creation time, and is stored. *)
Example create_scenario :
  create_announcement (platform := Py.platform) Sample.clock
    Sample.created_at Sample.inserted_id Sample.create_ok Sample.db
  = (Ok (<["_id" := VStr Sample.inserted_id]>
           (announcement_doc Sample.create_ok Sample.created_at)),
     mkdatabase
       (announcements_collection Sample.db
        ++ [<["_id" := VOid Sample.inserted_id]>
              (announcement_doc Sample.create_ok Sample.created_at)])
       (teachers_collection Sample.db)).
Proof. vm_compute. reflexivity. Qed.

(** C3, as stated, fails on a request whose start date is the empty string:
    the start date is present and does not parse, yet the record is
    persisted with it. *)
Lemma create_empty_start_counterexample :
  known_teacher "t1" Sample.db
  ∧ create_rejected_spec (platform := Py.platform) Sample.clock
      Sample.create_empty_start
  ∧ fst (create_announcement (platform := Py.platform) Sample.clock
           Sample.created_at Sample.inserted_id Sample.create_empty_start
           Sample.db)
    = Ok (<["_id" := VStr Sample.inserted_id]>
            (announcement_doc Sample.create_empty_start Sample.created_at))
  ∧ last (announcements_collection
            (snd (create_announcement (platform := Py.platform) Sample.clock
                    Sample.created_at Sample.inserted_id
                    Sample.create_empty_start Sample.db))) ≫= (.!! "start_date")
    = Some (VStr "")
  ∧ ¬ InvalidInput
        (fst (create_announcement (platform := Py.platform) Sample.clock
                Sample.created_at Sample.inserted_id
                Sample.create_empty_start Sample.db)).
Proof.
  split; [exact sample_teacher|]. split.
  { right. exists "". split; [reflexivity|]. unfold parses.
    vm_compute. discriminate. }
  split; [vm_compute; reflexivity|]. split; [vm_compute; reflexivity|].
  intros [detail H]. vm_compute in H. discriminate H.
Qed.

(** C4, as stated, fails on an input with a leading space: none of the
    three strategies accepts the string as it is, yet the parser returns a
    value. *)
Lemma parser_whitespace_counterexample :
  (∃ d, _parse_iso_datetime (platform := Py.platform)
          (VStr " 2026-01-20T12:34:56+00:00") = Ok d)
  ∧ parse_by_strategies (platform := Py.platform) (λ s, s)
      " 2026-01-20T12:34:56+00:00"
    = Raise (ValueError "Invalid ISO datetime:  2026-01-20T12:34:56+00:00").
Proof.
  split; [eexists; vm_compute; reflexivity|]. vm_compute. reflexivity.
Qed.

(** C5, as stated, fails on a string with a leading space: the parser
    accepts it, while the same string with Z replaced by +00:00 is not valid
    for the direct ISO-8601 parse. *)
Lemma trailing_Z_counterexample :
  is_ok (_parse_iso_datetime (platform := Py.platform)
           (VStr (" 2026-01-20T12:34:56" +:+ "Z"))) = true
  ∧ fromisoformat (Platform := Py.platform)
      (" 2026-01-20T12:34:56" +:+ "+00:00") = None.
Proof. split; vm_compute; reflexivity. Qed.

Lemma sample_started_id :
  ObjectId (Platform := Py.platform) Sample.started_id
  = Some "65a1b2c3d4e5f60718293a06".
Proof. reflexivity. Defined.

Lemma sample_started_found :
  find_one (announcements_collection Sample.db)
           (VOid "65a1b2c3d4e5f60718293a06") = Some Sample.started.
Proof. reflexivity. Defined.

Lemma update_without_fields_witness :
  known_teacher "t1" Sample.db
  ∧ ObjectId (Platform := Py.platform) Sample.started_id
    = Some "65a1b2c3d4e5f60718293a06"
  ∧ find_one (announcements_collection Sample.db)
             (VOid "65a1b2c3d4e5f60718293a06") = Some Sample.started
  ∧ update_announcement (platform := Py.platform) Sample.clock
      Sample.started_id (AnnouncementUpdate.mk None None None) "t1" Sample.db
    = (Ok (<["_id" := VStr "65a1b2c3d4e5f60718293a06"]> Sample.started),
       Sample.db).
Proof.
  split; [exact sample_teacher|]. split; [exact sample_started_id|].
  split; [exact sample_started_found|].
  exact (update_without_fields (platform := Py.platform) Sample.clock
           Sample.started_id "t1" Sample.db "65a1b2c3d4e5f60718293a06"
           Sample.started sample_teacher sample_started_id
           sample_started_found).
Defined.

Lemma sample_update_rejected :
  update_rejected (platform := Py.platform) Sample.clock
    Sample.update_bad_date.
Proof.
  right. exists "not-a-date". split; [reflexivity|].
  intros (e & He & _). vm_compute in He. discriminate He.
Defined.

(** The scenario of the specification: an update whose expiration date is
    not a date fails with InvalidInput and changes no field, although the
    message it carries is valid. *)
Lemma update_rejects_whole_request_witness :
  known_teacher "t1" Sample.db
  ∧ ObjectId (Platform := Py.platform) Sample.started_id
    = Some "65a1b2c3d4e5f60718293a06"
  ∧ find_one (announcements_collection Sample.db)
             (VOid "65a1b2c3d4e5f60718293a06") = Some Sample.started
  ∧ update_rejected (platform := Py.platform) Sample.clock
      Sample.update_bad_date
  ∧ InvalidInput
      (fst (update_announcement (platform := Py.platform) Sample.clock
              Sample.started_id Sample.update_bad_date "t1" Sample.db))
  ∧ snd (update_announcement (platform := Py.platform) Sample.clock
           Sample.started_id Sample.update_bad_date "t1" Sample.db)
    = Sample.db.
Proof.
  split; [exact sample_teacher|]. split; [exact sample_started_id|].
  split; [exact sample_started_found|].
  split; [exact sample_update_rejected|].
  exact (update_rejects_whole_request (platform := Py.platform) Sample.clock
           Sample.started_id "t1" Sample.update_bad_date Sample.db
           "65a1b2c3d4e5f60718293a06" Sample.started sample_teacher
           sample_started_id sample_started_found sample_update_rejected).
Defined.

Lemma sample_bad_expiration_listed :
  Sample.bad_expiration ∈ announcements_collection Sample.db.
Proof. apply list_elem_of_In. simpl. tauto. Defined.

Lemma malformed_dates_skipped_witness :
  has_ids (announcements_collection Sample.db)
  ∧ Sample.bad_expiration ∈ announcements_collection Sample.db
  ∧ known_teacher "t1" Sample.db
  ∧ (malformed (platform := Py.platform) Sample.bad_expiration
       "expiration_date"
     ∨ (¬ unset Sample.bad_expiration "start_date"
        ∧ malformed (platform := Py.platform) Sample.bad_expiration
            "start_date"))
  ∧ (∃ acts,
       get_active_announcements (platform := Py.platform)
         Sample.clock Sample.db = Ok acts
       ∧ with_str_id Sample.bad_expiration ∉ acts)
  ∧ (∃ every,
       get_all_announcements "t1" Sample.db = Ok every
       ∧ with_str_id Sample.bad_expiration ∈ every).
Proof.
  split; [exact sample_has_ids|].
  split; [exact sample_bad_expiration_listed|].
  split; [exact sample_teacher|].
  split; [left; reflexivity|].
  exact (malformed_dates_skipped (platform := Py.platform) Sample.clock "t1"
           Sample.db Sample.bad_expiration sample_has_ids
           sample_bad_expiration_listed sample_teacher
           (or_introl eq_refl)).
Defined.

(** C8, as stated, fails on a record stored with an empty start date: the
    start date is there and does not parse, yet the active listing returns
    the record. *)
Lemma malformed_empty_start_counterexample :
  ∃ acts,
    get_active_announcements (platform := Py.platform)
      Sample.clock Sample.db = Ok acts
    ∧ Sample.empty_start ∈ announcements_collection Sample.db
    ∧ ¬ absent Sample.empty_start "start_date"
    ∧ malformed (platform := Py.platform) Sample.empty_start "start_date"
    ∧ with_str_id Sample.empty_start ∈ acts.
Proof.
  eexists. split; [apply get_active_filter, sample_has_ids|].
  assert (Hin : Sample.empty_start ∈ announcements_collection Sample.db).
  { apply list_elem_of_In. simpl. tauto. }
  split; [exact Hin|]. split; [vm_compute; discriminate|].
  split; [vm_compute; reflexivity|].
  apply (listed_iff _ _ _ Hin). vm_compute. reflexivity.
Qed.

Lemma update_never_clears_witness :
  Forall2
    (λ d d' : doc, ∀ k, k ∈ updatable →
       (supplied (AnnouncementUpdate.mk (Some "Moved to Friday") None None) k
        = None → d' !! k = d !! k)
       ∧ (∀ s, d !! k = Some (VStr s) → ∃ s', d' !! k = Some (VStr s')))
    (announcements_collection Sample.db)
    (announcements_collection
       (snd (update_announcement (platform := Py.platform) Sample.clock
               Sample.started_id
               (AnnouncementUpdate.mk (Some "Moved to Friday") None None)
               "t1" Sample.db)))
  ∧ (∀ (body : gmap string AnnouncementUpdate.json) k, k ∈ updatable →
       AnnouncementUpdate.parse (<[k := AnnouncementUpdate.JNull]> body)
       = AnnouncementUpdate.parse (delete k body)).
Proof.
  exact (update_never_clears (platform := Py.platform) Sample.clock
           Sample.started_id "t1"
           (AnnouncementUpdate.mk (Some "Moved to Friday") None None)
           Sample.db).
Defined.

(** An update that gives only a message leaves the start date of the
    record where it was. *)
Example update_keeps_start_date :
  find_one
    (announcements_collection
       (snd (update_announcement (platform := Py.platform) Sample.clock
               Sample.started_id
               (AnnouncementUpdate.mk (Some "Moved to Friday") None None)
               "t1" Sample.db)))
    (VOid "65a1b2c3d4e5f60718293a06")
  = Some (<["message" := VStr "Moved to Friday"]> Sample.started).
Proof. vm_compute. reflexivity. Qed.

(** Dates are stored as supplied: with the leading space, without seconds,
    with the odd fraction. *)
Example update_stores_verbatim :
  (λ d : doc, (d !! "start_date", d !! "expiration_date")) <$>
  find_one
    (announcements_collection
       (snd (update_announcement (platform := Py.platform) Sample.clock
               Sample.started_id Sample.update_dates "t1" Sample.db)))
    (VOid "65a1b2c3d4e5f60718293a06")
  = Some (Some (VStr " 2026-01-21T09:00Z"),
          Some (VStr "2026-03-01T00:00:00.5Z")).
Proof. vm_compute. reflexivity. Qed.

Lemma stored_dates_verbatim_witness :
  (∃ returned stored : doc,
     fst (create_announcement (platform := Py.platform) Sample.clock
            Sample.created_at Sample.inserted_id Sample.create_ok Sample.db)
     = Ok returned
     ∧ announcements_collection
         (snd (create_announcement (platform := Py.platform) Sample.clock
                 Sample.created_at Sample.inserted_id Sample.create_ok
                 Sample.db))
       = (announcements_collection Sample.db ++ [stored])%list
     ∧ stored !! "start_date" = Some VNone
     ∧ stored !! "expiration_date" = Some (VStr "2026-01-20T13:00:00Z"))
  ∧ (∃ returned stored : doc,
       fst (update_announcement (platform := Py.platform) Sample.clock
              Sample.started_id Sample.update_dates "t1" Sample.db)
       = Ok returned
       ∧ find_one
           (announcements_collection
              (snd (update_announcement (platform := Py.platform)
                      Sample.clock Sample.started_id Sample.update_dates
                      "t1" Sample.db)))
           (VOid "65a1b2c3d4e5f60718293a06") = Some stored
       ∧ returned = with_str_id stored
       ∧ stored !! "start_date" = Some (VStr " 2026-01-21T09:00Z")
       ∧ stored !! "expiration_date" = Some (VStr "2026-03-01T00:00:00.5Z")).
Proof.
  destruct (stored_dates_verbatim (platform := Py.platform)) as [Hc Hu].
  split.
  - destruct (Hc Sample.clock Sample.created_at Sample.inserted_id
                Sample.create_ok Sample.db _ eq_refl)
      as (stored & Hs & H1 & H2 & _).
    eexists. exists stored. split; [reflexivity|]. auto.
  - destruct (Hu Sample.clock Sample.started_id Sample.update_dates "t1"
                Sample.db _ eq_refl)
      as (oid & stored & Ho & Hf & Hr & H1 & H2).
    eexists. exists stored. split; [reflexivity|].
    rewrite sample_started_id in Ho. injection Ho as <-.
    split; [exact Hf|]. split; [exact Hr|].
    split; [exact (H1 _ eq_refl) | exact (H2 _ eq_refl)].
Defined.

(** ** More on the collection operations *)

Module CollectionFacts.

Lemma find_one_app (c1 c2 : list doc) (key : value) :
  find_one (c1 ++ c2) key
  = match find_one c1 key with
    | Some d => Some d
    | None => find_one c2 key
    end.
Proof.
  induction c1 as [|d c1 IH]; simpl; [reflexivity|].
  destruct (decide _); [reflexivity | exact IH].
Qed.

Lemma find_one_update_one_ne (c : list doc) (key key' : value) (u : doc) :
  u !! "_id" = None → key' ≠ key →
  find_one (update_one c key u) key' = find_one c key'.
Proof.
  intros Hu Hne. induction c as [|d c IH]; simpl; [reflexivity|].
  destruct (decide (d !! "_id" = Some key)) as [Hd|Hd]; simpl.
  - rewrite lookup_union_r by exact Hu.
    rewrite !decide_False by congruence. reflexivity.
  - destruct (decide _); [reflexivity | exact IH].
Qed.

Lemma length_update_one (c : list doc) (key : value) (u : doc) :
  length (update_one c key u) = length c.
Proof.
  induction c as [|d c IH]; simpl; [reflexivity|].
  destruct (decide _); simpl; congruence.
Qed.

(** Deleting under a key nobody has changes nothing. *)
Lemma delete_one_absent (c : list doc) (key : value) :
  find_one c key = None → delete_one c key = (c, 0).
Proof.
  induction c as [|d c IH]; simpl; [reflexivity|].
  destruct (decide _); [discriminate|].
  intros H. rewrite (IH H). reflexivity.
Qed.

(** Deleting under a key somebody has removes one document and leaves what
    is found under every other key. *)
Lemma delete_one_present (c : list doc) (key : value) (d : doc) :
  find_one c key = Some d →
  ∃ c', delete_one c key = (c', 1)
        ∧ S (length c') = length c
        ∧ ∀ key', key' ≠ key → find_one c' key' = find_one c key'.
Proof.
  induction c as [|d0 c IH]; simpl; [discriminate|].
  destruct (decide (d0 !! "_id" = Some key)) as [Hd|Hd].
  - intros _. exists c. split; [reflexivity|]. split; [reflexivity|].
    intros key' Hne. rewrite decide_False by congruence. reflexivity.
  - intros Hf. destruct (IH Hf) as (c' & -> & Hlen & Hother).
    exists (d0 :: c'). split; [reflexivity|]. split; [simpl; congruence|].
    intros key' Hne. simpl. rewrite (Hother key' Hne). reflexivity.
Qed.

Lemma find_one_None (c : list doc) (key : value) :
  find_one c key = None ↔ Some key ∉ (λ d : doc, d !! "_id") <$> c.
Proof.
  induction c as [|d c IH]; simpl.
  - split; [intros _ H; inversion H | reflexivity].
  - rewrite not_elem_of_cons. destruct (decide _) as [Hd|Hd].
    + split; [discriminate|]. intros [H _]. congruence.
    + rewrite IH. split; [intros H; split; [congruence|exact H]|].
      intros [_ H]. exact H.
Qed.

(** With unique identifiers the deleted key is gone. *)
Lemma delete_one_gone (c : list doc) (key : value) :
  unique_ids c → find_one (fst (delete_one c key)) key = None.
Proof.
  unfold unique_ids. induction c as [|d c IH]; simpl; [reflexivity|].
  rewrite NoDup_cons. intros [Hd Hc].
  destruct (decide (d !! "_id" = Some key)) as [He|He]; simpl.
  - apply find_one_None. rewrite <- He. exact Hd.
  - specialize (IH Hc). destruct (delete_one c key) as [c' n]. simpl in *.
    rewrite decide_False by exact He. exact IH.
Qed.

End CollectionFacts.

(** ** Authorisation, lookup failures and frames of the handlers *)

Section HandlerFacts.

Context {platform : Platform}.

Lemma database_eta (db : database) :
  mkdatabase (announcements_collection db) (teachers_collection db) = db.
Proof. destruct db. reflexivity. Qed.

(** X1.  The unfiltered listing answers Unauthorized to a requester who is
    no teacher, whatever is stored; to a teacher it returns every stored
    document, in the order of the collection, each with its identifier
    printed as a string. *)
Theorem get_all_outcome (username : string) (db : database) :
  has_ids (announcements_collection db) →
  (¬ known_teacher username db →
   get_all_announcements username db = unauthorized)
  ∧ (known_teacher username db →
     get_all_announcements username db
     = Ok (with_str_id <$> announcements_collection db)).
Proof.
  intros H. unfold get_all_announcements, known_teacher. split.
  - intros Hn. destruct (find_one _ _); [|reflexivity].
    exfalso. apply Hn. eauto.
  - intros [t ->]. apply stringify_ids_map, H.
Qed.

(** X2.  A requester who is no teacher gets Unauthorized from create,
    update and delete before anything else is looked at: the dates are not
    validated, the identifier is not resolved, and the store is left as it
    was. *)
Theorem unknown_requester_rejected (clock : datetime)
    (created_at inserted_id announcement_id username : string)
    (creation : AnnouncementCreate.t) (change : AnnouncementUpdate.t)
    (db : database) :
  ¬ known_teacher username db →
  AnnouncementCreate.created_by creation = username →
  create_announcement clock created_at inserted_id creation db
  = (unauthorized, db)
  ∧ update_announcement clock announcement_id change username db
    = (unauthorized, db)
  ∧ delete_announcement announcement_id username db = (unauthorized, db).
Proof.
  intros Hn Hby.
  assert (Hf : find_one (teachers_collection db) (VStr username) = None).
  { destruct (find_one _ _) eqn:Hf; [|reflexivity].
    exfalso. apply Hn. unfold known_teacher. rewrite Hf. eauto. }
  unfold create_announcement, update_announcement, delete_announcement.
  rewrite Hby, Hf. auto.
Qed.

(** X3.  For a teacher, an update or a delete whose identifier is malformed,
    or well formed but naming no stored announcement, answers NotFound and
    leaves the store as it was; for update this comes before any validation
    of the fields, so invalid dates do not turn the answer into
    InvalidInput. *)
Theorem unknown_announcement_not_found (clock : datetime)
    (announcement_id username : string) (change : AnnouncementUpdate.t)
    (db : database) :
  known_teacher username db →
  (ObjectId announcement_id = None
   ∨ ∃ oid, ObjectId announcement_id = Some oid
            ∧ find_one (announcements_collection db) (VOid oid) = None) →
  update_announcement clock announcement_id change username db
  = (not_found, db)
  ∧ delete_announcement announcement_id username db = (not_found, db).
Proof.
  intros [t Ht] Hid. unfold update_announcement, delete_announcement.
  rewrite Ht. destruct Hid as [->|(oid & -> & Hf)]; [auto|].
  rewrite Hf, (CollectionFacts.delete_one_absent _ _ Hf). auto.
Qed.

(** X4.  For a teacher and an existing announcement, delete answers with its
    confirmation, removes exactly one document, leaves every announcement
    with another identifier where it was, and does not touch the
    teachers. *)
Theorem delete_removes_one (announcement_id username : string)
    (db : database) (oid : string) (existing : doc) :
  known_teacher username db →
  ObjectId announcement_id = Some oid →
  find_one (announcements_collection db) (VOid oid) = Some existing →
  let r := delete_announcement announcement_id username db in
  fst r = deleted
  ∧ teachers_collection (snd r) = teachers_collection db
  ∧ S (length (announcements_collection (snd r)))
    = length (announcements_collection db)
  ∧ ∀ key, key ≠ VOid oid →
           find_one (announcements_collection (snd r)) key
           = find_one (announcements_collection db) key.
Proof.
  intros [t Ht] Ho Hf. unfold delete_announcement. rewrite Ht, Ho.
  destruct (CollectionFacts.delete_one_present _ _ _ Hf)
    as (c' & -> & Hlen & Hother).
  cbn. auto.
Qed.

(** X5.  When identifiers are unique, a deleted announcement is gone: it is
    no longer found, and deleting it again answers NotFound. *)
Theorem delete_twice_not_found (announcement_id username : string)
    (db : database) (oid : string) (existing : doc) :
  unique_ids (announcements_collection db) →
  known_teacher username db →
  ObjectId announcement_id = Some oid →
  find_one (announcements_collection db) (VOid oid) = Some existing →
  let db' := snd (delete_announcement announcement_id username db) in
  find_one (announcements_collection db') (VOid oid) = None
  ∧ delete_announcement announcement_id username db' = (not_found, db').
Proof.
  intros Hu [t Ht] Ho Hf db'.
  pose proof (CollectionFacts.delete_one_gone _ (VOid oid) Hu) as Hg.
  destruct (CollectionFacts.delete_one_present _ _ _ Hf) as (c' & Hd & _).
  rewrite Hd in Hg. cbn [fst] in Hg.
  assert (Hdb : db' = mkdatabase c' (teachers_collection db)).
  { subst db'. unfold delete_announcement. rewrite Ht, Ho, Hd. reflexivity. }
  rewrite Hdb. cbn [announcements_collection]. split; [exact Hg|].
  unfold delete_announcement. cbn [teachers_collection announcements_collection].
  rewrite Ht, Ho, (CollectionFacts.delete_one_absent _ _ Hg). reflexivity.
Qed.

(** X6.  An update, whatever it answers, keeps the number of stored
    announcements and the teachers, and leaves every announcement with
    another identifier exactly as it was. *)
Theorem update_leaves_other_records (clock : datetime)
    (announcement_id username : string) (change : AnnouncementUpdate.t)
    (db : database) (oid : string) :
  ObjectId announcement_id = Some oid →
  let db' := snd (update_announcement clock announcement_id change
                                      username db) in
  length (announcements_collection db') = length (announcements_collection db)
  ∧ teachers_collection db' = teachers_collection db
  ∧ ∀ key, key ≠ VOid oid →
           find_one (announcements_collection db') key
           = find_one (announcements_collection db) key.
Proof.
  intros Ho db'. subst db'. unfold update_announcement. rewrite Ho.
  destruct (find_one (teachers_collection db) _); [|auto].
  destruct (find_one (announcements_collection db) _); [|auto].
  destruct (build_update_cases clock change)
    as [(_ & detail & ->)|(_ & u & -> & Hu)]; [auto|].
  assert (Hid : u !! "_id" = None) by (rewrite Hu; reflexivity).
  destruct (decide (u = ∅)); destruct (find_one _ _); cbn; auto;
    (split; [apply CollectionFacts.length_update_one|]);
    (split; [reflexivity|]); intros key Hk;
    apply CollectionFacts.find_one_update_one_ne; assumption.
Qed.

(** X7.  An update never changes a field other than message, start_date
    and expiration_date: in every stored document the identifier, the
    author, the creation time and any other field stay what they were. *)
Theorem update_keeps_other_fields (clock : datetime)
    (announcement_id username : string) (change : AnnouncementUpdate.t)
    (db : database) :
  Forall2 (λ d d' : doc, ∀ k, k ∉ updatable → d' !! k = d !! k)
    (announcements_collection db)
    (announcements_collection
       (snd (update_announcement clock announcement_id change username db))).
Proof.
  destruct (update_store_cases clock announcement_id username change db)
    as [Heq|(oid & u & Hu & Heq)]; cbv zeta in Heq; rewrite Heq.
  - apply Forall2_same_length_lookup_2; [reflexivity|].
    intros i x y Hx Hy k _. congruence.
  - cbn [announcements_collection].
    eapply Forall2_impl; [apply StoreFacts.update_one_pointwise|].
    intros d d' [-> | ->] k Hk; [reflexivity|].
    apply lookup_union_r. rewrite Hu. unfold supplied.
    repeat case_decide; subst; try reflexivity;
      exfalso; apply Hk; unfold updatable; set_solver.
Qed.

(** What a successful create has done. *)
Lemma create_ok_inv (clock : datetime) (created_at inserted_id : string)
    (creation : AnnouncementCreate.t) (db : database) (returned : doc) :
  fst (create_announcement clock created_at inserted_id creation db)
  = Ok returned →
  ¬ create_rejected clock creation
  ∧ returned = <["_id" := VStr inserted_id]>
                 (announcement_doc creation created_at)
  ∧ snd (create_announcement clock created_at inserted_id creation db)
    = mkdatabase
        (announcements_collection db
         ++ [<["_id" := VOid inserted_id]>
               (announcement_doc creation created_at)])
        (teachers_collection db).
Proof.
  intros Hok.
  assert (Ht : known_teacher (AnnouncementCreate.created_by creation) db).
  { unfold known_teacher. unfold create_announcement in Hok.
    destruct (find_one (teachers_collection db) _); [eauto|].
    discriminate Hok. }
  destruct (create_cases clock created_at inserted_id creation db Ht)
    as [(_ & [detail Hi] & _)|(Hn & Hr & Hdb)].
  { rewrite Hi in Hok. discriminate Hok. }
  rewrite Hr in Hok. injection Hok as <-. auto.
Qed.

(** X8.  A create that succeeds under an identifier not yet in use can be
    read back: the document found under that identifier is the one
    returned, up to the printing of the identifier, and every document
    stored before is found as before. *)
Theorem create_then_find (clock : datetime) (created_at inserted_id : string)
    (creation : AnnouncementCreate.t) (db : database) (returned : doc) :
  fresh_id inserted_id (announcements_collection db) →
  fst (create_announcement clock created_at inserted_id creation db)
  = Ok returned →
  let db' := snd (create_announcement clock created_at inserted_id
                                      creation db) in
  (∃ stored, find_one (announcements_collection db') (VOid inserted_id)
             = Some stored
             ∧ returned = with_str_id stored)
  ∧ ∀ key, key ≠ VOid inserted_id →
           find_one (announcements_collection db') key
           = find_one (announcements_collection db) key.
Proof.
  intros Hfresh Hok db'. subst db'.
  destruct (create_ok_inv _ _ _ _ _ _ Hok) as (_ & -> & ->).
  cbn [announcements_collection]. split.
  - eexists. rewrite CollectionFacts.find_one_app, Hfresh. simpl.
    rewrite decide_True by apply lookup_insert_eq.
    split; [reflexivity|].
    unfold with_str_id, get. rewrite lookup_insert_eq, insert_insert_eq.
    reflexivity.
  - intros key Hk. rewrite CollectionFacts.find_one_app.
    destruct (find_one _ key); [reflexivity|]. simpl.
    rewrite decide_False; [reflexivity|].
    rewrite lookup_insert_eq. congruence.
Qed.

(** X10.  Deleting an announcement right after creating it, under an
    identifier that was not in use and that the store reads back from its
    string, returns the store to what it was before the create. *)
Theorem create_then_delete (clock : datetime) (created_at inserted_id : string)
    (creation : AnnouncementCreate.t) (username : string) (db : database)
    (returned : doc) :
  fresh_id inserted_id (announcements_collection db) →
  ObjectId inserted_id = Some inserted_id →
  known_teacher username db →
  fst (create_announcement clock created_at inserted_id creation db)
  = Ok returned →
  delete_announcement (py_str (get returned "_id")) username
    (snd (create_announcement clock created_at inserted_id creation db))
  = (deleted, db).
Proof.
  intros Hfresh Ho [t Hu] Hok.
  destruct (create_ok_inv _ _ _ _ _ _ Hok) as (_ & -> & ->).
  unfold get. rewrite lookup_insert_eq. cbn [default from_option id py_str].
  unfold delete_announcement.
  cbn [teachers_collection announcements_collection]. rewrite Hu, Ho.
  assert (Hdel : ∀ c x, find_one c (VOid inserted_id) = None →
            x !! "_id" = Some (VOid inserted_id) →
            delete_one (c ++ [x]) (VOid inserted_id) = (c, 1)).
  { intros c x Hc Hx. induction c as [|d c IH]; simpl in *.
    - rewrite decide_True by exact Hx. reflexivity.
    - destruct (decide _); [discriminate|]. rewrite (IH Hc). reflexivity. }
  rewrite (Hdel _ _ Hfresh) by apply lookup_insert_eq.
  cbn. rewrite database_eta. reflexivity.
Qed.

(** X22.  No handler ever writes to the teachers: after any create, update
    or delete the teachers collection is the one before. *)
Theorem teachers_never_modified (clock : datetime)
    (created_at inserted_id announcement_id username : string)
    (creation : AnnouncementCreate.t) (change : AnnouncementUpdate.t)
    (db : database) :
  teachers_collection
    (snd (create_announcement clock created_at inserted_id creation db))
  = teachers_collection db
  ∧ teachers_collection
      (snd (update_announcement clock announcement_id change username db))
    = teachers_collection db
  ∧ teachers_collection
      (snd (delete_announcement announcement_id username db))
    = teachers_collection db.
Proof.
  split; [|split].
  - unfold create_announcement.
    destruct (find_one _ _); [|reflexivity].
    destruct (check_expiration _ _); [|reflexivity].
    destruct (if truthy _ then _ else _); reflexivity.
  - destruct (update_store_cases clock announcement_id username change db)
      as [Heq|(oid & u & _ & Heq)]; cbv zeta in Heq; rewrite Heq; reflexivity.
  - unfold delete_announcement.
    destruct (find_one _ _); [|reflexivity].
    destruct (ObjectId _); [|reflexivity].
    destruct (delete_one _ _) as [c n]. destruct (n =? 0); reflexivity.
Qed.

End HandlerFacts.

(** ** The order of instants *)

Module OrderFacts.

Ltac level f a b c :=
  destruct (Z.compare_spec (f a) (f b)),
           (Z.compare_spec (f b) (f c)),
           (Z.compare_spec (f a) (f c));
  try (exfalso; lia); try (intros; discriminate);
  try (intros; reflexivity).

(** [<=] on naive values is transitive. *)
Lemma leb_trans (a b c : datetime) :
  dt_leb a b = true → dt_leb b c = true → dt_leb a c = true.
Proof.
  unfold dt_leb, dt_compare.
  level year a b c. level month a b c. level day a b c.
  level hour a b c. level minute a b c. level second a b c.
  level microsecond a b c.
Qed.

(** [s > e] and [s <= now <= e] cannot hold together. *)
Lemma gtb_not_between (s e now : datetime) :
  dt_gtb s e = true → dt_leb s now = true → dt_leb now e = true → False.
Proof.
  intros Hgt H1 H2. pose proof (leb_trans _ _ _ H1 H2) as H.
  apply DtFacts.leb_false_gtb in Hgt. congruence.
Qed.

End OrderFacts.

(** ** The window over time, and listings after writes *)

Section TimeFacts.

Context {platform : Platform}.

(** What is listed at an instant, for a store whose documents have
    identifiers. *)
Lemma listed_active (clock : datetime) (db : database) (a : doc) :
  has_ids (announcements_collection db) →
  a ∈ announcements_collection db →
  (∃ acts, get_active_announcements clock db = Ok acts
           ∧ with_str_id a ∈ acts)
  ↔ active_window (current_instant clock) a.
Proof.
  intros H Ha. rewrite (get_active_filter _ _ H). split.
  - intros (acts & [= <-] & Hin).
    apply (listed_iff _ _ _ Ha), in_window_active in Hin. exact Hin.
  - intros Hw. eexists. split; [reflexivity|].
    apply (listed_iff _ _ _ Ha), in_window_active, Hw.
Qed.

(** X18.  The instants at which an announcement is listed form an interval:
    listed at an earlier and at a later instant, it is listed at every
    instant in between. *)
Theorem active_instants_interval (earlier between later : datetime)
    (db : database) (a : doc) :
  has_ids (announcements_collection db) →
  a ∈ announcements_collection db →
  dt_leb (current_instant earlier) (current_instant between) = true →
  dt_leb (current_instant between) (current_instant later) = true →
  (∃ acts, get_active_announcements earlier db = Ok acts
           ∧ with_str_id a ∈ acts) →
  (∃ acts, get_active_announcements later db = Ok acts
           ∧ with_str_id a ∈ acts) →
  ∃ acts, get_active_announcements between db = Ok acts
          ∧ with_str_id a ∈ acts.
Proof.
  intros H Ha H12 H23. rewrite !(listed_active _ _ _ H Ha).
  intros (e1 & He1 & _ & Hs1) (e3 & He3 & Hle3 & _).
  exists e3. split; [exact He3|].
  split; [exact (OrderFacts.leb_trans _ _ _ H23 Hle3)|].
  destruct Hs1 as [Hs1|(s & Hs & Hle)]; [left; exact Hs1|right].
  exists s. split; [exact Hs|]. exact (OrderFacts.leb_trans _ _ _ Hle H12).
Qed.

(** X19.  No ordering between the two dates is required of a stored
    announcement, and one whose start date is set and falls after its
    expiration is listed at no instant. *)
Theorem inverted_window_never_listed (clock : datetime) (db : database)
    (a : doc) (s e : datetime) :
  has_ids (announcements_collection db) →
  a ∈ announcements_collection db →
  ¬ unset a "start_date" →
  utc_of (get a "start_date") = Ok s →
  utc_of (get a "expiration_date") = Ok e →
  dt_gtb s e = true →
  ∃ acts, get_active_announcements clock db = Ok acts
          ∧ with_str_id a ∉ acts.
Proof.
  intros H Ha Hset Hs He Hgt. rewrite (get_active_filter _ _ H).
  eexists. split; [reflexivity|].
  rewrite (listed_iff _ _ _ Ha), in_window_active.
  intros (e' & He' & Hle & Hstart). rewrite He in He'. injection He' as <-.
  destruct Hstart as [Hun|(s' & Hs' & Hle')]; [contradiction|].
  rewrite Hs in Hs'. injection Hs' as <-.
  exact (OrderFacts.gtb_not_between _ _ _ Hgt Hle' Hle).
Qed.

(** X17.  For a teacher, what the active listing returns is what the
    unfiltered listing returns with some documents left out: the same
    documents, in the same order. *)
Theorem active_sublist_of_all (clock : datetime) (username : string)
    (db : database) :
  has_ids (announcements_collection db) →
  known_teacher username db →
  ∃ acts every,
    get_active_announcements clock db = Ok acts
    ∧ get_all_announcements username db = Ok every
    ∧ acts `sublist_of` every.
Proof.
  intros H [t Ht]. rewrite (get_active_filter _ _ H).
  unfold get_all_announcements. rewrite Ht, (stringify_ids_map _ H).
  eexists. eexists. split; [reflexivity|]. split; [reflexivity|].
  apply fmap_sublist, sublist_filter.
Qed.

(** X9.  An announcement just created is listed at the instant of its
    creation exactly when its start date is unset or not after that
    instant, and what is listed is the record that create returned. *)
Theorem create_then_listed (clock : datetime) (created_at inserted_id : string)
    (creation : AnnouncementCreate.t) (db : database) (returned : doc) :
  has_ids (announcements_collection db) →
  fst (create_announcement clock created_at inserted_id creation db)
  = Ok returned →
  ∃ acts,
    get_active_announcements clock
      (snd (create_announcement clock created_at inserted_id creation db))
    = Ok acts
    ∧ (returned ∈ acts ↔
       truthy (of_optional (AnnouncementCreate.start_date creation)) = false
       ∨ ∃ s, utc_of (of_optional (AnnouncementCreate.start_date creation))
              = Ok s
              ∧ dt_leb s (current_instant clock) = true).
Proof.
  intros H Hok.
  destruct (create_ok_inv _ _ _ _ _ _ Hok) as (Hn & -> & ->).
  set (d := announcement_doc creation created_at).
  set (stored := <["_id" := VOid inserted_id]> d).
  assert (Hret : <["_id" := VStr inserted_id]> d = with_str_id stored).
  { unfold with_str_id, get, stored.
    rewrite lookup_insert_eq, insert_insert_eq. reflexivity. }
  assert (H' : has_ids (announcements_collection db ++ [stored])).
  { apply Forall_app. split; [exact H|].
    constructor; [|constructor]. eexists. apply lookup_insert_eq. }
  assert (Hin : stored ∈ (announcements_collection db ++ [stored])%list).
  { apply elem_of_app. right. apply list_elem_of_singleton. reflexivity. }
  rewrite get_active_filter by exact H'. cbn [announcements_collection].
  eexists. split; [reflexivity|].
  rewrite Hret, (listed_iff _ _ _ Hin), in_window_active.
  assert (Hexp : get stored "expiration_date"
                 = VStr (AnnouncementCreate.expiration_date creation)).
  { unfold get, stored, d, announcement_doc. by simplify_map_eq. }
  assert (Hstart : get stored "start_date"
                   = of_optional (AnnouncementCreate.start_date creation)).
  { unfold get, stored, d, announcement_doc. by simplify_map_eq. }
  unfold active_window, unset. rewrite Hexp, Hstart. split.
  - intros (e & _ & _ & Hs). exact Hs.
  - intros Hs.
    destruct (check_expiration_cases clock
                (AnnouncementCreate.expiration_date creation))
      as [[_ (e & He & Hgt)]|[_ Hv]].
    2:{ exfalso. apply Hn. left. exact Hv. }
    exists e. split; [exact He|]. split; [|exact Hs].
    apply DtFacts.ltb_false_leb. rewrite <- DtFacts.ltb_gtb in Hgt.
    unfold dt_ltb in *. rewrite DtFacts.compare_antisym.
    destruct (dt_compare (current_instant clock) e); try discriminate Hgt.
    reflexivity.
Qed.

(** X21.  An update that supplies neither date does not change which
    announcements are in their window: every stored document is in the
    window at an instant after the update exactly if it was before. *)
Theorem update_without_dates_keeps_window (clock now : datetime)
    (announcement_id username : string) (change : AnnouncementUpdate.t)
    (db : database) :
  AnnouncementUpdate.start_date change = None →
  AnnouncementUpdate.expiration_date change = None →
  Forall2 (λ d d' : doc, active_window now d' ↔ active_window now d)
    (announcements_collection db)
    (announcements_collection
       (snd (update_announcement clock announcement_id change username db))).
Proof.
  intros Hs He.
  assert (Hsame : ∀ d d' : doc,
            d' !! "start_date" = d !! "start_date" →
            d' !! "expiration_date" = d !! "expiration_date" →
            active_window now d' ↔ active_window now d).
  { intros d d' H1 H2. unfold active_window, unset, get.
    rewrite H1, H2. reflexivity. }
  destruct (update_store_cases clock announcement_id username change db)
    as [Heq|(oid & u & Hu & Heq)]; cbv zeta in Heq; rewrite Heq.
  - apply Forall2_same_length_lookup_2; [reflexivity|].
    intros i x y Hx Hy. assert (x = y) as -> by congruence. reflexivity.
  - cbn [announcements_collection].
    eapply Forall2_impl; [apply StoreFacts.update_one_pointwise|].
    intros d d' [-> | ->]; [reflexivity|].
    apply Hsame; apply lookup_union_r; rewrite Hu; unfold supplied; cbn;
      [rewrite Hs|rewrite He]; reflexivity.
Qed.

End TimeFacts.

(** ** What the handlers answer *)

Section AnswerFacts.

Context {platform : Platform}.

(** The errors [build_update_doc] can raise. *)
Lemma build_update_errors (clock : datetime) (change : AnnouncementUpdate.t)
    (e : exn) :
  build_update_doc clock change = Raise e →
  e = bad_start_format ∨ e = bad_expiration_format.
Proof.
  unfold build_update_doc.
  destruct (AnnouncementUpdate.start_date change) as [s|].
  - destruct (_parse_iso_datetime (VStr s)); cbn [bind].
    + destruct (AnnouncementUpdate.expiration_date change) as [x|];
        [|discriminate].
      destruct (check_expiration clock x); [discriminate|].
      intros [= <-]. right. reflexivity.
    + intros [= <-]. left. reflexivity.
  - cbn [bind].
    destruct (AnnouncementUpdate.expiration_date change) as [x|];
      [|discriminate].
    destruct (check_expiration clock x); [discriminate|].
    intros [= <-]. right. reflexivity.
Qed.

(** X23.  The answers of the three writing handlers are these and no
    others: create returns a record, Unauthorized, or InvalidInput with one
    of two details; update returns a record, Unauthorized, NotFound, or
    InvalidInput with one of the same two details, and in particular its
    final read of the record never fails; delete returns its confirmation,
    Unauthorized or NotFound. *)
Theorem handler_answers (clock : datetime)
    (created_at inserted_id announcement_id username : string)
    (creation : AnnouncementCreate.t) (change : AnnouncementUpdate.t)
    (db : database) :
  (let r := fst (create_announcement clock created_at inserted_id
                                     creation db) in
   (∃ d, r = Ok d) ∨ r = unauthorized
   ∨ r = Raise bad_expiration_format ∨ r = Raise bad_start_format)
  ∧ (let r := fst (update_announcement clock announcement_id change
                                       username db) in
     (∃ d, r = Ok d) ∨ r = unauthorized ∨ r = not_found
     ∨ r = Raise bad_expiration_format ∨ r = Raise bad_start_format)
  ∧ (let r := fst (delete_announcement announcement_id username db) in
     r = deleted ∨ r = unauthorized ∨ r = not_found).
Proof.
  split; [|split]; cbv zeta.
  - unfold create_announcement.
    destruct (find_one _ _); [|auto].
    destruct (check_expiration _ _); [|auto].
    destruct (if truthy _ then _ else _); eauto 6.
  - destruct (find_one (teachers_collection db) (VStr username))
      as [t|] eqn:Ht.
    2:{ unfold update_announcement. rewrite Ht. auto. }
    destruct (ObjectId announcement_id) as [oid|] eqn:Ho.
    2:{ unfold update_announcement. rewrite Ht, Ho. auto. }
    destruct (find_one (announcements_collection db) (VOid oid))
      as [existing|] eqn:Hf.
    2:{ unfold update_announcement. rewrite Ht, Ho, Hf. auto. }
    assert (Hk : known_teacher username db)
      by (unfold known_teacher; rewrite Ht; eauto).
    destruct (update_found clock announcement_id username change db oid
                existing Hk Ho Hf)
      as [(_ & [detail Hi] & _)|(_ & u & _ & -> & _)]; [|eauto].
    unfold update_announcement in *. rewrite Ht, Ho, Hf in *.
    destruct (build_update_doc clock change) as [u|e] eqn:Hb.
    + exfalso.
      match type of Hi with
      | context [find_one ?c (VOid oid)] =>
          destruct (find_one c (VOid oid)) as [x|]
      end; cbn in Hi; [|discriminate Hi].
      unfold getitem in Hi. destruct (x !! "_id"); discriminate Hi.
    + cbn. destruct (build_update_errors _ _ _ Hb) as [-> | ->]; auto.
  - unfold delete_announcement, deleted.
    destruct (find_one _ _); [|auto].
    destruct (ObjectId _); [|auto].
    destruct (delete_one _ _) as [c n]. destruct (n =? 0); auto.
Qed.

(** X11.  An expiration date that parses but is not after the current
    instant makes the validation raise its own error, "Expiration date must
    be in the future"; that error never reaches the caller, because the
    handler around it answers every failure of the validation with
    "Invalid expiration date format".  So do create and update for a
    teacher, leaving the store as it was. *)
Theorem past_expiration_detail (clock : datetime)
    (created_at inserted_id announcement_id username : string)
    (creation : AnnouncementCreate.t) (change : AnnouncementUpdate.t)
    (db : database) (oid : string) (existing : doc)
    (expiration : string) (e : datetime) :
  utc_of (VStr expiration) = Ok e →
  dt_leb e (current_instant clock) = true →
  known_teacher username db →
  AnnouncementCreate.created_by creation = username →
  AnnouncementCreate.expiration_date creation = expiration →
  ObjectId announcement_id = Some oid →
  find_one (announcements_collection db) (VOid oid) = Some existing →
  AnnouncementUpdate.start_date change = None →
  AnnouncementUpdate.expiration_date change = Some expiration →
  check_expiration clock expiration
  = Raise (HTTPException 400 "Expiration date must be in the future")
  ∧ create_announcement clock created_at inserted_id creation db
    = (Raise bad_expiration_format, db)
  ∧ update_announcement clock announcement_id change username db
    = (Raise bad_expiration_format, db).
Proof.
  intros He Hle [t Ht] Hby Hexp Ho Hf Hs Hx.
  assert (Hc : check_expiration clock expiration
               = Raise (HTTPException 400
                          "Expiration date must be in the future")).
  { unfold check_expiration. unfold utc_of in He.
    destruct (_parse_iso_datetime (VStr expiration)) as [d|];
      [|discriminate He].
    cbn [bind] in *. rewrite He, now_utc_naive. cbn [bind].
    rewrite Hle. reflexivity. }
  split; [exact Hc|]. split.
  - unfold create_announcement. rewrite Hby, Ht, Hexp, Hc. reflexivity.
  - unfold update_announcement, build_update_doc.
    rewrite Ht, Ho, Hf, Hs, Hx. cbn [bind]. rewrite Hc. reflexivity.
Qed.

(** X12.  When both dates of a request are invalid, create reports the
    expiration date and update reports the start date: create validates
    the expiration first, update the start first. *)
Theorem validation_order (clock : datetime)
    (created_at inserted_id announcement_id username : string)
    (creation : AnnouncementCreate.t) (change : AnnouncementUpdate.t)
    (db : database) (oid : string) (existing : doc)
    (start expiration : string) :
  start ≠ "" →
  ¬ parses start →
  ¬ valid_expiration clock expiration →
  known_teacher username db →
  AnnouncementCreate.created_by creation = username →
  AnnouncementCreate.start_date creation = Some start →
  AnnouncementCreate.expiration_date creation = expiration →
  ObjectId announcement_id = Some oid →
  find_one (announcements_collection db) (VOid oid) = Some existing →
  AnnouncementUpdate.start_date change = Some start →
  AnnouncementUpdate.expiration_date change = Some expiration →
  create_announcement clock created_at inserted_id creation db
  = (Raise bad_expiration_format, db)
  ∧ update_announcement clock announcement_id change username db
    = (Raise bad_start_format, db).
Proof.
  intros Hne Hs Hv [t Ht] Hby Hcs Hce Ho Hf Hus Hue. split.
  - unfold create_announcement. rewrite Hby, Ht, Hce.
    destruct (check_expiration_cases clock expiration) as [[_ H]|[H _]];
      [contradiction|].
    destruct (check_expiration clock expiration); [discriminate H|].
    reflexivity.
  - unfold update_announcement, build_update_doc. rewrite Ht, Ho, Hf, Hus.
    apply not_parses in Hs.
    destruct (_parse_iso_datetime (VStr start)); [discriminate Hs|].
    reflexivity.
Qed.

End AnswerFacts.

(** ** More on the timestamp parser *)

Module PaddingFacts.

Lemma append_assoc (a b c : string) : (a +:+ b) +:+ c = a +:+ (b +:+ c).
Proof.
  induction a as [|x a IH]; [reflexivity|].
  change (String x ((a +:+ b) +:+ c) = String x (a +:+ (b +:+ c))).
  congruence.
Qed.

Lemma rstrip_all_space (p : string) :
  all_space p = true → Str.rstrip p = "".
Proof.
  induction p as [|c p IH]; simpl; [reflexivity|].
  rewrite andb_true_iff. intros [Hc Hp]. rewrite (IH Hp), Hc. reflexivity.
Qed.

Lemma lstrip_all_space (p s : string) :
  all_space p = true → Str.lstrip (p +:+ s) = Str.lstrip s.
Proof.
  induction p as [|c p IH]; simpl; [reflexivity|].
  rewrite andb_true_iff. intros [Hc Hp]. rewrite Hc. exact (IH Hp).
Qed.

Lemma rstrip_app_blank (s t : string) :
  Str.rstrip t = "" → Str.rstrip (s +:+ t) = Str.rstrip s.
Proof.
  intros Ht. induction s as [|c s IH]; simpl; [exact Ht|].
  rewrite IH. reflexivity.
Qed.

(** Padding a string with whitespace does not change what [strip] gives. *)
Lemma strip_padding (pre s post : string) :
  all_space pre = true → all_space post = true →
  Str.strip (pre +:+ s +:+ post) = Str.strip s.
Proof.
  intros Hpre Hpost. unfold Str.strip.
  rewrite <- append_assoc.
  rewrite (rstrip_app_blank _ _ (rstrip_all_space _ Hpost)).
  destruct (Str.is_empty (Str.rstrip s)) eqn:He.
  - assert (Hs : Str.rstrip s = "")
      by (destruct (Str.rstrip s); [reflexivity|discriminate He]).
    rewrite (rstrip_app_blank _ _ Hs), (rstrip_all_space _ Hpre), Hs.
    reflexivity.
  - rewrite (StrFacts.rstrip_app _ _ He). apply lstrip_all_space, Hpre.
Qed.

Lemma isdigit_not_space (c : ascii) :
  Str.isdigit c = true → Str.isspace c = false.
Proof.
  destruct c as [[] [] [] [] [] [] [] []]; try discriminate; reflexivity.
Qed.

(** A string that a fixed-width pattern covers is matched in front of any
    continuation. *)
Lemma fixed_prefix (p : list Re.item) (m r : string) :
  Re.fixed p m = Some (m, "") → Re.fixed p (m +:+ r) = Some (m, r).
Proof.
  revert m. induction p as [|i p IH]; intros m; simpl.
  - intros H. injection H as H1 H2. subst m. reflexivity.
  - destruct m as [|c m]; [discriminate|]. simpl.
    destruct (Re.item_ok i c); [|discriminate].
    destruct (Re.fixed p m) as [[m' r']|] eqn:Hm; simpl; [|discriminate].
    intros [= -> ->]. rewrite (IH m Hm). reflexivity.
Qed.

Lemma span_digits (ds : string) (c : ascii) (r : string) :
  all_digits ds = true → Str.isdigit c = false →
  Str.span Str.isdigit (ds +:+ String c r) = (ds, String c r).
Proof.
  intros Hds Hc. induction ds as [|d ds IH]; simpl.
  - rewrite Hc. reflexivity.
  - simpl in Hds. apply andb_true_iff in Hds as [Hd Hds].
    rewrite Hd, (IH Hds). reflexivity.
Qed.

End PaddingFacts.

Section ParserMore.

Context {platform : Platform}.

(** X13.  Whitespace around a timestamp does not matter: a string padded
    with whitespace on either side is accepted exactly when the string
    itself is, and with the same value. *)
Theorem parser_ignores_padding (pre s post : string) (d : datetime) :
  all_space pre = true → all_space post = true →
  _parse_iso_datetime (VStr (pre +:+ s +:+ post)) = Ok d
  ↔ _parse_iso_datetime (VStr s) = Ok d.
Proof.
  intros Hpre Hpost. rewrite !parse_normal_form. unfold parse_by_strategies.
  rewrite (PaddingFacts.strip_padding _ _ _ Hpre Hpost).
  destruct (first_success _ _); split; intros H; try discriminate H;
    exact H.
Qed.

(** X14.  No string matches both fallback patterns, so trying the
    fractional-seconds pattern only when the missing-seconds pattern did not
    match loses nothing. *)
Theorem fallback_patterns_disjoint (v : string) :
  ¬ (is_Some (Re.missing_seconds v) ∧ is_Some (Re.fraction v)).
Proof.
  intros [Hm [x Hf]]. rewrite (ReFacts.patterns_exclusive v Hm) in Hf.
  discriminate Hf.
Qed.

(** X15.  A timestamp to the second, followed by a fraction of any number
    of digits and a Z, is read by the direct parse if that accepts the
    fraction, and otherwise as the same timestamp without the fraction:
    the fraction is dropped, not rounded, and the Z is read as +00:00. *)
Theorem fraction_dropped (stamp digits : string) :
  Re.fixed Re.p_datetime_s stamp = Some (stamp, "") →
  digits ≠ "" → all_digits digits = true →
  _parse_iso_datetime (VStr ((stamp +:+ "." +:+ digits) +:+ "Z"))
  = match fromisoformat (stamp +:+ "." +:+ digits +:+ "+00:00") with
    | Some d => Ok d
    | None =>
        match fromisoformat (stamp +:+ "+00:00") with
        | Some d => Ok d
        | None =>
            Raise (ValueError ("Invalid ISO datetime: "
                               +:+ (stamp +:+ "." +:+ digits) +:+ "Z"))
        end
    end.
Proof.
  intros Hstamp Hne Hds. rewrite parse_normal_form.
  unfold parse_by_strategies. rewrite z_to_offset_strip_Z.
  assert (Hl : Str.lstrip (stamp +:+ "." +:+ digits)
               = stamp +:+ "." +:+ digits).
  { destruct stamp as [|c stamp]; [discriminate Hstamp|].
    simpl in Hstamp |- *. destruct (Str.isdigit c) eqn:Hc;
      [|discriminate Hstamp].
    rewrite (PaddingFacts.isdigit_not_space c Hc). reflexivity. }
  rewrite Hl, !PaddingFacts.append_assoc.
  change ("." +:+ digits +:+ "+00:00")
    with (String "." (digits +:+ "+00:00")).
  set (v := stamp +:+ String "." (digits +:+ "+00:00")).
  assert (Hf : Re.fraction v = Some (stamp, "+00:00")).
  { unfold Re.fraction, v.
    rewrite (PaddingFacts.fixed_prefix _ _ _ Hstamp). cbn [mbind option_bind].
    change (Re.fixed [Re.Lit "."] (String "." (digits +:+ "+00:00")))
      with (Some (String "." "", digits +:+ "+00:00")).
    cbn [mbind option_bind].
    rewrite (PaddingFacts.span_digits digits "+" "00:00" Hds eq_refl).
    destruct digits; [contradiction|]. reflexivity. }
  assert (Hm : Re.missing_seconds v = None).
  { destruct (Re.missing_seconds v) eqn:Hm; [|reflexivity].
    rewrite (ReFacts.patterns_exclusive v) in Hf by (rewrite Hm; eauto).
    discriminate Hf. }
  unfold first_success, strategy_direct, strategy_missing_seconds,
    strategy_fraction_stripped.
  rewrite Hm, Hf.
  destruct (fromisoformat v); [reflexivity|].
  destruct (fromisoformat _); reflexivity.
Qed.

(** X16.  A date with hours and minutes but no seconds, followed by a Z, is
    read by the direct parse if that accepts it, and otherwise as the same
    time with seconds :00, at offset +00:00. *)
Theorem missing_seconds_defaulted (date hm : string) :
  Re.fixed Re.p_date date = Some (date, "") →
  Re.fixed Re.p_hm hm = Some (hm, "") →
  _parse_iso_datetime (VStr ((date +:+ "T" +:+ hm) +:+ "Z"))
  = match fromisoformat (date +:+ "T" +:+ hm +:+ "+00:00") with
    | Some d => Ok d
    | None =>
        match fromisoformat (date +:+ "T" +:+ hm +:+ ":00" +:+ "+00:00") with
        | Some d => Ok d
        | None =>
            Raise (ValueError ("Invalid ISO datetime: "
                               +:+ (date +:+ "T" +:+ hm) +:+ "Z"))
        end
    end.
Proof.
  intros Hdate Hhm. rewrite parse_normal_form.
  unfold parse_by_strategies. rewrite z_to_offset_strip_Z.
  assert (Hl : Str.lstrip (date +:+ "T" +:+ hm) = date +:+ "T" +:+ hm).
  { destruct date as [|c date]; [discriminate Hdate|].
    simpl in Hdate |- *. destruct (Str.isdigit c) eqn:Hc;
      [|discriminate Hdate].
    rewrite (PaddingFacts.isdigit_not_space c Hc). reflexivity. }
  rewrite Hl, !PaddingFacts.append_assoc.
  change ("T" +:+ hm +:+ "+00:00") with (String "T" (hm +:+ "+00:00")).
  set (v := date +:+ String "T" (hm +:+ "+00:00")).
  assert (Hm : Re.missing_seconds v = Some (date, hm, Some "+00:00")).
  { unfold Re.missing_seconds, v.
    rewrite (PaddingFacts.fixed_prefix _ _ _ Hdate). cbn [mbind option_bind].
    change (Re.fixed [Re.Lit "T"] (String "T" (hm +:+ "+00:00")))
      with (Some (String "T" "", hm +:+ "+00:00")).
    cbn [mbind option_bind].
    rewrite (PaddingFacts.fixed_prefix _ _ _ Hhm). reflexivity. }
  unfold first_success, strategy_direct, strategy_missing_seconds.
  rewrite Hm. cbn [default from_option id].
  change ("T" +:+ hm +:+ ":00" +:+ "+00:00")
    with (String "T" (hm +:+ ":00" +:+ "+00:00")).
  change (date +:+ "T" +:+ hm +:+ ":00" +:+ "+00:00")
    with (date +:+ String "T" (hm +:+ ":00" +:+ "+00:00")).
  destruct (fromisoformat v); [reflexivity|].
  destruct (fromisoformat _); [reflexivity|].
  unfold strategy_fraction_stripped.
  rewrite (ReFacts.patterns_exclusive v) by (rewrite Hm; eauto).
  reflexivity.
Qed.

End ParserMore.

Section RepeatFacts.

Context {platform : Platform}.

Lemma union_twice (u d : doc) : u ∪ (u ∪ d) = u ∪ d.
Proof. rewrite (assoc_L (∪)), (idemp_L (∪) u). reflexivity. Qed.

Lemma update_one_twice (c : list doc) (key : value) (u : doc) :
  u !! "_id" = None →
  update_one (update_one c key u) key u = update_one c key u.
Proof.
  intros Hu. induction c as [|d c IH]; simpl; [reflexivity|].
  destruct (decide (d !! "_id" = Some key)) as [Hd|Hd]; simpl.
  - rewrite decide_True by (rewrite lookup_union_r by exact Hu; exact Hd).
    rewrite union_twice. reflexivity.
  - rewrite decide_False by exact Hd. rewrite IH. reflexivity.
Qed.

(** X20.  Repeating a successful update at the same instant changes
    nothing more: the second call returns the same record and leaves the
    store as the first call left it. *)
Theorem update_twice (clock : datetime) (announcement_id username : string)
    (change : AnnouncementUpdate.t) (db : database) (returned : doc) :
  fst (update_announcement clock announcement_id change username db)
  = Ok returned →
  let db' := snd (update_announcement clock announcement_id change
                                      username db) in
  update_announcement clock announcement_id change username db'
  = (Ok returned, db').
Proof.
  intros Hok db'.
  destruct (find_one (teachers_collection db) (VStr username))
    as [t|] eqn:Ht;
    [|unfold update_announcement in Hok; rewrite Ht in Hok;
      discriminate Hok].
  destruct (ObjectId announcement_id) as [oid|] eqn:Ho;
    [|unfold update_announcement in Hok; rewrite Ht, Ho in Hok;
      discriminate Hok].
  destruct (find_one (announcements_collection db) (VOid oid))
    as [existing|] eqn:Hf;
    [|unfold update_announcement in Hok; rewrite Ht, Ho, Hf in Hok;
      discriminate Hok].
  assert (Hk : known_teacher username db)
    by (unfold known_teacher; rewrite Ht; eauto).
  destruct (update_found clock announcement_id username change db oid
              existing Hk Ho Hf)
    as [(_ & [detail Hi] & _)|(Hn & u & Hu & Hr & Hf' & Hdb)].
  { rewrite Hi in Hok. discriminate Hok. }
  rewrite Hr in Hok. injection Hok as <-. fold db' in Hf', Hdb.
  assert (Hid : u !! "_id" = None) by (rewrite Hu; reflexivity).
  assert (Hk' : known_teacher username db').
  { unfold known_teacher. rewrite Hdb.
    destruct (decide (u = ∅)); cbn [teachers_collection]; rewrite Ht; eauto. }
  destruct (update_found clock announcement_id username change db' oid
              (u ∪ existing) Hk' Ho Hf')
    as [(Hrej & _)|(_ & u' & Hu' & Hr' & _ & Hdb')]; [contradiction|].
  assert (u' = u) as ->.
  { apply map_eq. intros k. rewrite Hu, Hu'. reflexivity. }
  rewrite union_twice in Hr'.
  rewrite (surjective_pairing (update_announcement _ _ _ _ db')).
  rewrite Hr', Hdb'. f_equal.
  destruct (decide (u = ∅)) as [He|He]; [reflexivity|].
  rewrite Hdb.
  cbn [announcements_collection teachers_collection].
  rewrite (update_one_twice _ _ _ Hid). reflexivity.
Qed.

End RepeatFacts.

(** ** The further properties at concrete inputs *)

Lemma sample_no_ghost : ¬ known_teacher "ghost" Sample.db.
Proof. intros [t Ht]. discriminate Ht. Defined.

Lemma sample_unique_ids : unique_ids (announcements_collection Sample.db).
Proof.
  unfold unique_ids. apply (bool_decide_unpack _). vm_compute. exact I.
Defined.

Lemma sample_fresh_id :
  fresh_id Sample.inserted_id (announcements_collection Sample.db).
Proof. reflexivity. Defined.

Lemma get_all_outcome_witness :
  has_ids (announcements_collection Sample.db)
  ∧ get_all_announcements "ghost" Sample.db = unauthorized
  ∧ get_all_announcements "t1" Sample.db
    = Ok (with_str_id <$> announcements_collection Sample.db).
Proof.
  split; [exact sample_has_ids|].
  destruct (get_all_outcome "t1" Sample.db sample_has_ids) as [_ Hk].
  destruct (get_all_outcome "ghost" Sample.db sample_has_ids) as [Hn _].
  split; [exact (Hn sample_no_ghost) | exact (Hk sample_teacher)].
Defined.

Lemma unknown_requester_rejected_witness :
  ¬ known_teacher "ghost" Sample.db
  ∧ create_announcement (platform := Py.platform) Sample.clock
      Sample.created_at Sample.inserted_id Sample.create_by_ghost Sample.db
    = (unauthorized, Sample.db)
  ∧ update_announcement (platform := Py.platform) Sample.clock
      Sample.started_id Sample.update_both_bad "ghost" Sample.db
    = (unauthorized, Sample.db)
  ∧ delete_announcement (platform := Py.platform) Sample.started_id "ghost"
      Sample.db
    = (unauthorized, Sample.db).
Proof.
  split; [exact sample_no_ghost|].
  exact (unknown_requester_rejected (platform := Py.platform) Sample.clock
           Sample.created_at Sample.inserted_id Sample.started_id "ghost"
           Sample.create_by_ghost Sample.update_both_bad Sample.db
           sample_no_ghost eq_refl).
Defined.

Lemma unknown_announcement_not_found_witness :
  known_teacher "t1" Sample.db
  ∧ (∃ oid, ObjectId (Platform := Py.platform) Sample.unknown_id = Some oid
            ∧ find_one (announcements_collection Sample.db) (VOid oid)
              = None)
  ∧ update_announcement (platform := Py.platform) Sample.clock
      Sample.unknown_id Sample.update_both_bad "t1" Sample.db
    = (not_found, Sample.db)
  ∧ delete_announcement (platform := Py.platform) Sample.unknown_id "t1"
      Sample.db
    = (not_found, Sample.db).
Proof.
  assert (H : ∃ oid,
            ObjectId (Platform := Py.platform) Sample.unknown_id = Some oid
            ∧ find_one (announcements_collection Sample.db) (VOid oid)
              = None).
  { eexists. split; reflexivity. }
  split; [exact sample_teacher|]. split; [exact H|].
  exact (unknown_announcement_not_found (platform := Py.platform)
           Sample.clock Sample.unknown_id "t1" Sample.update_both_bad
           Sample.db sample_teacher (or_intror H)).
Defined.

Lemma delete_removes_one_witness :
  known_teacher "t1" Sample.db
  ∧ ObjectId (Platform := Py.platform) Sample.started_id
    = Some "65a1b2c3d4e5f60718293a06"
  ∧ find_one (announcements_collection Sample.db)
             (VOid "65a1b2c3d4e5f60718293a06") = Some Sample.started
  ∧ fst (delete_announcement (platform := Py.platform) Sample.started_id
           "t1" Sample.db) = deleted
  ∧ S (length (announcements_collection
                 (snd (delete_announcement (platform := Py.platform)
                         Sample.started_id "t1" Sample.db))))
    = length (announcements_collection Sample.db).
Proof.
  split; [exact sample_teacher|]. split; [exact sample_started_id|].
  split; [exact sample_started_found|].
  destruct (delete_removes_one (platform := Py.platform) Sample.started_id
              "t1" Sample.db _ _ sample_teacher sample_started_id
              sample_started_found) as (H1 & _ & H3 & _).
  split; [exact H1 | exact H3].
Defined.

Lemma delete_twice_not_found_witness :
  unique_ids (announcements_collection Sample.db)
  ∧ known_teacher "t1" Sample.db
  ∧ ObjectId (Platform := Py.platform) Sample.started_id
    = Some "65a1b2c3d4e5f60718293a06"
  ∧ find_one (announcements_collection Sample.db)
             (VOid "65a1b2c3d4e5f60718293a06") = Some Sample.started
  ∧ delete_announcement (platform := Py.platform) Sample.started_id "t1"
      (snd (delete_announcement (platform := Py.platform) Sample.started_id
              "t1" Sample.db))
    = (not_found,
       snd (delete_announcement (platform := Py.platform) Sample.started_id
              "t1" Sample.db)).
Proof.
  split; [exact sample_unique_ids|]. split; [exact sample_teacher|].
  split; [exact sample_started_id|]. split; [exact sample_started_found|].
  exact (proj2 (delete_twice_not_found (platform := Py.platform)
                  Sample.started_id "t1" Sample.db _ _ sample_unique_ids
                  sample_teacher sample_started_id sample_started_found)).
Defined.

Lemma update_leaves_other_records_witness :
  ObjectId (Platform := Py.platform) Sample.started_id
  = Some "65a1b2c3d4e5f60718293a06"
  ∧ length (announcements_collection
              (snd (update_announcement (platform := Py.platform)
                      Sample.clock Sample.started_id Sample.update_dates
                      "t1" Sample.db)))
    = length (announcements_collection Sample.db)
  ∧ ∀ key, key ≠ VOid "65a1b2c3d4e5f60718293a06" →
           find_one
             (announcements_collection
                (snd (update_announcement (platform := Py.platform)
                        Sample.clock Sample.started_id Sample.update_dates
                        "t1" Sample.db))) key
           = find_one (announcements_collection Sample.db) key.
Proof.
  split; [exact sample_started_id|].
  destruct (update_leaves_other_records (platform := Py.platform)
              Sample.clock Sample.started_id "t1" Sample.update_dates
              Sample.db _ sample_started_id) as (H1 & _ & H3).
  split; [exact H1 | exact H3].
Defined.

Lemma sample_create_ok :
  fst (create_announcement (platform := Py.platform) Sample.clock
         Sample.created_at Sample.inserted_id Sample.create_ok Sample.db)
  = Ok (<["_id" := VStr Sample.inserted_id]>
          (announcement_doc Sample.create_ok Sample.created_at)).
Proof. vm_compute. reflexivity. Defined.

Lemma create_then_find_witness :
  fresh_id Sample.inserted_id (announcements_collection Sample.db)
  ∧ (∃ returned stored,
       fst (create_announcement (platform := Py.platform) Sample.clock
              Sample.created_at Sample.inserted_id Sample.create_ok Sample.db)
       = Ok returned
       ∧ find_one
           (announcements_collection
              (snd (create_announcement (platform := Py.platform)
                      Sample.clock Sample.created_at Sample.inserted_id
                      Sample.create_ok Sample.db)))
           (VOid Sample.inserted_id) = Some stored
       ∧ returned = with_str_id stored).
Proof.
  split; [exact sample_fresh_id|].
  destruct (create_then_find (platform := Py.platform) Sample.clock
              Sample.created_at Sample.inserted_id Sample.create_ok
              Sample.db _ sample_fresh_id sample_create_ok)
    as [(stored & Hf & Hr) _].
  eexists. exists stored. split; [exact sample_create_ok|]. auto.
Defined.

Lemma create_then_listed_witness :
  has_ids (announcements_collection Sample.db)
  ∧ ∃ returned acts,
      fst (create_announcement (platform := Py.platform) Sample.clock
             Sample.created_at Sample.inserted_id Sample.create_ok Sample.db)
      = Ok returned
      ∧ get_active_announcements (platform := Py.platform) Sample.clock
          (snd (create_announcement (platform := Py.platform) Sample.clock
                  Sample.created_at Sample.inserted_id Sample.create_ok
                  Sample.db))
        = Ok acts
      ∧ returned ∈ acts.
Proof.
  split; [exact sample_has_ids|].
  destruct (create_then_listed (platform := Py.platform) Sample.clock
              Sample.created_at Sample.inserted_id Sample.create_ok
              Sample.db _ sample_has_ids sample_create_ok)
    as (acts & Ha & Hiff).
  eexists. exists acts. split; [exact sample_create_ok|].
  split; [exact Ha|]. apply Hiff. left. reflexivity.
Defined.

Lemma create_then_delete_witness :
  fresh_id Sample.inserted_id (announcements_collection Sample.db)
  ∧ ObjectId (Platform := Py.platform) Sample.inserted_id
    = Some Sample.inserted_id
  ∧ known_teacher "t1" Sample.db
  ∧ ∃ returned,
      fst (create_announcement (platform := Py.platform) Sample.clock
             Sample.created_at Sample.inserted_id Sample.create_ok Sample.db)
      = Ok returned
      ∧ delete_announcement (platform := Py.platform)
          (py_str (get returned "_id")) "t1"
          (snd (create_announcement (platform := Py.platform) Sample.clock
                  Sample.created_at Sample.inserted_id Sample.create_ok
                  Sample.db))
        = (deleted, Sample.db).
Proof.
  split; [exact sample_fresh_id|]. split; [reflexivity|].
  split; [exact sample_teacher|].
  eexists. split; [exact sample_create_ok|].
  exact (create_then_delete (platform := Py.platform) Sample.clock
           Sample.created_at Sample.inserted_id Sample.create_ok "t1"
           Sample.db _ sample_fresh_id eq_refl sample_teacher
           sample_create_ok).
Defined.

Lemma sample_past_utc :
  utc_of (platform := Py.platform) (VStr "2026-01-19T12:00:00Z")
  = Ok (mkdatetime 2026 1 19 12 0 0 0 None).
Proof. vm_compute. reflexivity. Defined.

Lemma past_expiration_detail_witness :
  utc_of (platform := Py.platform) (VStr "2026-01-19T12:00:00Z")
  = Ok (mkdatetime 2026 1 19 12 0 0 0 None)
  ∧ dt_leb (mkdatetime 2026 1 19 12 0 0 0 None)
           (current_instant Sample.clock) = true
  ∧ known_teacher "t1" Sample.db
  ∧ check_expiration (platform := Py.platform) Sample.clock
      "2026-01-19T12:00:00Z"
    = Raise (HTTPException 400 "Expiration date must be in the future")
  ∧ create_announcement (platform := Py.platform) Sample.clock
      Sample.created_at Sample.inserted_id Sample.create_past Sample.db
    = (Raise bad_expiration_format, Sample.db)
  ∧ update_announcement (platform := Py.platform) Sample.clock
      Sample.started_id Sample.update_past "t1" Sample.db
    = (Raise bad_expiration_format, Sample.db).
Proof.
  split; [exact sample_past_utc|]. split; [reflexivity|].
  split; [exact sample_teacher|].
  exact (past_expiration_detail (platform := Py.platform) Sample.clock
           Sample.created_at Sample.inserted_id Sample.started_id "t1"
           Sample.create_past Sample.update_past Sample.db _ _ _ _
           sample_past_utc eq_refl sample_teacher eq_refl eq_refl
           sample_started_id sample_started_found eq_refl eq_refl).
Defined.

Lemma sample_soon_unparseable : ¬ parses (platform := Py.platform) "soon".
Proof. unfold parses. vm_compute. discriminate. Defined.

Lemma sample_never_invalid :
  ¬ valid_expiration (platform := Py.platform) Sample.clock "never".
Proof. intros (e & He & _). vm_compute in He. discriminate He. Defined.

Lemma validation_order_witness :
  "soon" ≠ ""
  ∧ ¬ parses (platform := Py.platform) "soon"
  ∧ ¬ valid_expiration (platform := Py.platform) Sample.clock "never"
  ∧ known_teacher "t1" Sample.db
  ∧ create_announcement (platform := Py.platform) Sample.clock
      Sample.created_at Sample.inserted_id Sample.create_both_bad Sample.db
    = (Raise bad_expiration_format, Sample.db)
  ∧ update_announcement (platform := Py.platform) Sample.clock
      Sample.started_id Sample.update_both_bad "t1" Sample.db
    = (Raise bad_start_format, Sample.db).
Proof.
  assert (Hne : "soon" ≠ "") by discriminate.
  split; [exact Hne|]. split; [exact sample_soon_unparseable|].
  split; [exact sample_never_invalid|]. split; [exact sample_teacher|].
  exact (validation_order (platform := Py.platform) Sample.clock
           Sample.created_at Sample.inserted_id Sample.started_id "t1"
           Sample.create_both_bad Sample.update_both_bad Sample.db _ _
           "soon" "never" Hne sample_soon_unparseable sample_never_invalid
           sample_teacher eq_refl eq_refl eq_refl sample_started_id
           sample_started_found eq_refl eq_refl).
Defined.

Lemma parser_ignores_padding_witness :
  all_space Sample.blanks = true
  ∧ all_space Sample.line_end = true
  ∧ _parse_iso_datetime (platform := Py.platform)
      (VStr (Sample.blanks +:+ "2026-01-20T12:34:56Z" +:+ Sample.line_end))
    = Ok (mkdatetime 2026 1 20 12 34 56 0 (Some 0)).
Proof.
  split; [reflexivity|]. split; [reflexivity|].
  apply (parser_ignores_padding (platform := Py.platform) Sample.blanks
           "2026-01-20T12:34:56Z" Sample.line_end _ eq_refl eq_refl).
  vm_compute. reflexivity.
Defined.

Lemma fraction_dropped_witness :
  Re.fixed Re.p_datetime_s "2026-01-20T12:34:56"
  = Some ("2026-01-20T12:34:56", "")
  ∧ "1234567" ≠ ""
  ∧ all_digits "1234567" = true
  ∧ _parse_iso_datetime (platform := Py.platform)
      (VStr "2026-01-20T12:34:56.1234567Z")
    = Ok (mkdatetime 2026 1 20 12 34 56 0 (Some 0)).
Proof.
  assert (Hne : "1234567" ≠ "") by discriminate.
  split; [reflexivity|]. split; [exact Hne|]. split; [reflexivity|].
  exact (fraction_dropped (platform := Py.platform) "2026-01-20T12:34:56"
           "1234567" eq_refl Hne eq_refl).
Defined.

Lemma missing_seconds_defaulted_witness :
  Re.fixed Re.p_date "2026-01-20" = Some ("2026-01-20", "")
  ∧ Re.fixed Re.p_hm "12:34" = Some ("12:34", "")
  ∧ _parse_iso_datetime (platform := Py.platform) (VStr "2026-01-20T12:34Z")
    = Ok (mkdatetime 2026 1 20 12 34 0 0 (Some 0)).
Proof.
  split; [reflexivity|]. split; [reflexivity|].
  exact (missing_seconds_defaulted (platform := Py.platform) "2026-01-20"
           "12:34" eq_refl eq_refl).
Defined.

Lemma active_sublist_of_all_witness :
  has_ids (announcements_collection Sample.db)
  ∧ known_teacher "t1" Sample.db
  ∧ ∃ acts every,
      get_active_announcements (platform := Py.platform) Sample.clock
        Sample.db = Ok acts
      ∧ get_all_announcements "t1" Sample.db = Ok every
      ∧ acts `sublist_of` every.
Proof.
  split; [exact sample_has_ids|]. split; [exact sample_teacher|].
  exact (active_sublist_of_all (platform := Py.platform) Sample.clock "t1"
           Sample.db sample_has_ids sample_teacher).
Defined.

Lemma sample_started_listed :
  Sample.started ∈ announcements_collection Sample.db.
Proof. apply list_elem_of_In. simpl. tauto. Defined.

Lemma sample_started_active (clock : datetime) :
  in_window (platform := Py.platform) (current_instant clock) Sample.started
  = true →
  ∃ acts, get_active_announcements (platform := Py.platform) clock Sample.db
          = Ok acts
          ∧ with_str_id Sample.started ∈ acts.
Proof.
  intros H. eexists. split; [apply get_active_filter, sample_has_ids|].
  apply (listed_iff _ _ _ sample_started_listed), H.
Defined.

Lemma active_instants_interval_witness :
  has_ids (announcements_collection Sample.db)
  ∧ Sample.started ∈ announcements_collection Sample.db
  ∧ dt_leb (current_instant Sample.clock) (current_instant Sample.clock_1pm)
    = true
  ∧ dt_leb (current_instant Sample.clock_1pm)
           (current_instant Sample.clock_2pm) = true
  ∧ (∃ acts, get_active_announcements (platform := Py.platform)
               Sample.clock Sample.db = Ok acts
             ∧ with_str_id Sample.started ∈ acts)
  ∧ (∃ acts, get_active_announcements (platform := Py.platform)
               Sample.clock_2pm Sample.db = Ok acts
             ∧ with_str_id Sample.started ∈ acts)
  ∧ (∃ acts, get_active_announcements (platform := Py.platform)
               Sample.clock_1pm Sample.db = Ok acts
             ∧ with_str_id Sample.started ∈ acts).
Proof.
  assert (H1 := sample_started_active Sample.clock eq_refl).
  assert (H3 := sample_started_active Sample.clock_2pm eq_refl).
  split; [exact sample_has_ids|]. split; [exact sample_started_listed|].
  split; [reflexivity|]. split; [reflexivity|].
  split; [exact H1|]. split; [exact H3|].
  exact (active_instants_interval (platform := Py.platform) Sample.clock
           Sample.clock_1pm Sample.clock_2pm Sample.db Sample.started
           sample_has_ids sample_started_listed eq_refl eq_refl H1 H3).
Defined.

Lemma sample_inverted_has_ids :
  has_ids (announcements_collection Sample.db_inverted).
Proof. constructor; [eexists; reflexivity|]. constructor. Defined.

Lemma sample_inverted_listed :
  Sample.inverted ∈ announcements_collection Sample.db_inverted.
Proof. apply list_elem_of_In. simpl. tauto. Defined.

Lemma sample_inverted_set : ¬ unset Sample.inverted "start_date".
Proof. unfold unset. vm_compute. discriminate. Defined.

Lemma sample_inverted_start :
  utc_of (platform := Py.platform) (get Sample.inverted "start_date")
  = Ok (mkdatetime 2026 1 21 0 0 0 0 None).
Proof. vm_compute. reflexivity. Defined.

Lemma sample_inverted_expiration :
  utc_of (platform := Py.platform) (get Sample.inverted "expiration_date")
  = Ok (mkdatetime 2026 1 20 18 0 0 0 None).
Proof. vm_compute. reflexivity. Defined.

Lemma inverted_window_never_listed_witness :
  has_ids (announcements_collection Sample.db_inverted)
  ∧ Sample.inverted ∈ announcements_collection Sample.db_inverted
  ∧ ¬ unset Sample.inverted "start_date"
  ∧ utc_of (platform := Py.platform) (get Sample.inverted "start_date")
    = Ok (mkdatetime 2026 1 21 0 0 0 0 None)
  ∧ utc_of (platform := Py.platform) (get Sample.inverted "expiration_date")
    = Ok (mkdatetime 2026 1 20 18 0 0 0 None)
  ∧ dt_gtb (mkdatetime 2026 1 21 0 0 0 0 None)
           (mkdatetime 2026 1 20 18 0 0 0 None) = true
  ∧ ∃ acts, get_active_announcements (platform := Py.platform)
              Sample.clock_1pm Sample.db_inverted = Ok acts
            ∧ with_str_id Sample.inverted ∉ acts.
Proof.
  split; [exact sample_inverted_has_ids|].
  split; [exact sample_inverted_listed|].
  split; [exact sample_inverted_set|].
  split; [exact sample_inverted_start|].
  split; [exact sample_inverted_expiration|]. split; [reflexivity|].
  exact (inverted_window_never_listed (platform := Py.platform)
           Sample.clock_1pm Sample.db_inverted Sample.inverted _ _
           sample_inverted_has_ids sample_inverted_listed
           sample_inverted_set sample_inverted_start
           sample_inverted_expiration eq_refl).
Defined.

Lemma sample_update_message_ok :
  fst (update_announcement (platform := Py.platform) Sample.clock
         Sample.started_id Sample.update_message "t1" Sample.db)
  = Ok (with_str_id (<["message" := VStr "Moved to Friday"]> Sample.started)).
Proof. vm_compute. reflexivity. Defined.

Lemma update_twice_witness :
  fst (update_announcement (platform := Py.platform) Sample.clock
         Sample.started_id Sample.update_message "t1" Sample.db)
  = Ok (with_str_id (<["message" := VStr "Moved to Friday"]> Sample.started))
  ∧ update_announcement (platform := Py.platform) Sample.clock
      Sample.started_id Sample.update_message "t1"
      (snd (update_announcement (platform := Py.platform) Sample.clock
              Sample.started_id Sample.update_message "t1" Sample.db))
    = (Ok (with_str_id
             (<["message" := VStr "Moved to Friday"]> Sample.started)),
       snd (update_announcement (platform := Py.platform) Sample.clock
              Sample.started_id Sample.update_message "t1" Sample.db)).
Proof.
  split; [exact sample_update_message_ok|].
  exact (update_twice (platform := Py.platform) Sample.clock
           Sample.started_id "t1" Sample.update_message Sample.db _
           sample_update_message_ok).
Defined.

Lemma update_without_dates_keeps_window_witness :
  AnnouncementUpdate.start_date Sample.update_message = None
  ∧ AnnouncementUpdate.expiration_date Sample.update_message = None
  ∧ Forall2
      (λ d d' : doc,
         active_window (platform := Py.platform)
           (current_instant Sample.clock_1pm) d'
         ↔ active_window (platform := Py.platform)
             (current_instant Sample.clock_1pm) d)
      (announcements_collection Sample.db)
      (announcements_collection
         (snd (update_announcement (platform := Py.platform) Sample.clock
                 Sample.started_id Sample.update_message "t1" Sample.db))).
Proof.
  split; [reflexivity|]. split; [reflexivity|].
  exact (update_without_dates_keeps_window (platform := Py.platform)
           Sample.clock (current_instant Sample.clock_1pm) Sample.started_id
           "t1" Sample.update_message Sample.db eq_refl eq_refl).
Defined.
